(** * Execution tools: [execute_code] and [execute_command]

    A shallow embedding of [src/tools/basetool.py].  The two tools write a
    snippet to disk, start a child process through the shell and reduce what
    the child did to a dict (for code) or a string (for commands).

    Everything outside the module is a collaborator and is given by the
    [Host] record: whether [os.makedirs], [open] and [write] fault, and what
    the child process does.  [os.path] is an interface ([OsPath]) because it
    differs between platforms; [PosixPath] is its POSIX instance.  The
    constant [WORKING_DIRECTORY] comes from [load_cfg] and is a parameter.

    Strings are [string]; the dict that [execute_code] returns is a
    [gmap string string]; exceptions are values of [Fault] and [PyExc],
    which stand for instances of Python's [Exception] ([KeyboardInterrupt]
    and [SystemExit] are no faults and have no place here).  The tools run
    in a monad of state and exceptions; the state is the [World] (files, log,
    commands launched) and, inside [execute_code], the one local that its
    handler looks up in [locals()].

    Left out: the [@tool] wrapper, the directory check at import time, and
    the traceback that [logger.exception] adds to its message. *)

From Stdlib Require Import ZArith Ascii.
From stdpp Require Import gmap strings.

(** ** Strings *)

Module Str.

(** [s.startswith(p)] *)
Fixpoint startswith (p s : string) : bool :=
  match p, s with
  | EmptyString, _ => true
  | String a p', String b s' => if decide (a = b) then startswith p' s' else false
  | String _ _, EmptyString => false
  end.

(** [s.endswith(c)] for a one-character [c] *)
Fixpoint endswith_char (c : ascii) (s : string) : bool :=
  match s with
  | EmptyString => false
  | String a EmptyString => if decide (a = c) then true else false
  | String _ s' => endswith_char c s'
  end.

(** The pieces of [s] between the characters that satisfy [is_sep]; like
    [s.split(sep)] there is always at least one piece. *)
Fixpoint split_on (is_sep : ascii → bool) (s : string) : list string :=
  match s with
  | EmptyString => [EmptyString]
  | String c s' =>
      if is_sep c then EmptyString :: split_on is_sep s'
      else match split_on is_sep s' with
           | w :: ws => String c w :: ws
           | [] => [String c EmptyString]
           end
  end.

(** [sep.join(parts)] *)
Fixpoint join_with (sep : string) (parts : list string) : string :=
  match parts with
  | [] => ""
  | [w] => w
  | w :: ws => w +:+ sep +:+ join_with sep ws
  end.

Definition is_empty (s : string) : bool :=
  match s with EmptyString => true | _ => false end.

Definition eqb (a b : string) : bool := bool_decide (a = b).

(** [s.endswith(suffix)], as a proposition *)
Definition ends_with (s suffix : string) : Prop := ∃ front, s = front +:+ suffix.

End Str.

(** ** [os.path] *)

(** The three functions of [os.path] that [execute_code] calls. *)
Class OsPath := {
  os_path_isabs : string → bool;
  os_path_join : string → string → string;
  os_path_normpath : string → string;
}.

(** [posixpath], the [os.path] of a POSIX host. *)
Module PosixPath.

Definition is_sep (c : ascii) : bool := bool_decide (c = "/"%char).

Definition isabs (s : string) : bool := Str.startswith "/" s.

Definition join (a b : string) : string :=
  if Str.startswith "/" b then b
  else if Str.is_empty a || Str.endswith_char "/" a then a +:+ b
  else a +:+ "/" +:+ b.

(** POSIX keeps one or exactly two leading slashes; three or more count
    as one. *)
Definition initial_slashes (path : string) : nat :=
  if Str.startswith "/" path then
    if Str.startswith "//" path && negb (Str.startswith "///" path) then 2 else 1
  else 0.

(** One round of the loop over the components. *)
Definition norm_step (slashes : nat) (new_comps : list string) (comp : string)
  : list string :=
  if Str.eqb comp "" || Str.eqb comp "." then new_comps
  else if negb (Str.eqb comp "..")
          || (bool_decide (slashes = 0) && bool_decide (new_comps = []))
          || (negb (bool_decide (new_comps = []))
              && bool_decide (last new_comps = Some ".."))
       then new_comps ++ [comp]
       else removelast new_comps.

Definition normpath (path : string) : string :=
  if Str.is_empty path then "."
  else
    let slashes := initial_slashes path in
    let comps := fold_left (norm_step slashes) (Str.split_on is_sep path) [] in
    let joined := Str.join_with "/" comps in
    let res := match slashes with
               | 0 => joined
               | 1 => "/" +:+ joined
               | _ => "//" +:+ joined
               end in
    if Str.is_empty res then "." else res.

End PosixPath.

#[export] Instance posixpath : OsPath := {|
  os_path_isabs := PosixPath.isabs;
  os_path_join := PosixPath.join;
  os_path_normpath := PosixPath.normpath;
|}.

(** ** Exceptions *)

(** An exception raised by the host: an instance of a subclass of
    [Exception] other than [CalledProcessError], with its class name and
    the text [str(e)] gives. *)
Record Fault := mkFault { fault_class : string; fault_msg : string }.

(** What [subprocess.run(..., check=True)] can raise. *)
Inductive PyExc :=
  | CalledProcessError (returncode : Z) (cmd output stderr : string)
  | OtherException (f : Fault).

(** ** The world *)

Inductive Level := INFO | ERROR.

(** [files] holds the regular files by path, [log] what the logger got and
    [launched] every (command line, cwd) handed to the shell, oldest first. *)
Record World := mkWorld {
  files : gmap string string;
  log : list (Level * string);
  launched : list (string * string);
}.

Record CompletedProcess := mkCompleted {
  returncode : Z;
  stdout : string;
  stderr : string;
}.

(** The collaborators.  [host_makedirs p] is the fault of
    [os.makedirs(p, exist_ok=True)], if any; [host_open_w p] that of
    [open(p, 'w', encoding='utf-8')]; [host_write p text] that of writing
    [text] and closing, with the text that reached the file all the same.
    [host_spawn cmd cwd fs] is the child that the shell runs for [cmd] in
    [cwd] on the files [fs]: a launch fault or the exit status and both
    streams, and the files as the child left them.  A stream that cannot be
    read as text makes [subprocess.run] raise after the child has exited;
    that too is a fault here, the streams not having been captured. *)
Record Host := mkHost {
  host_makedirs : string → option Fault;
  host_open_w : string → option Fault;
  host_write : string → string → option (Fault * string);
  host_spawn : string → string → gmap string string
               → (Fault + CompletedProcess) * gmap string string;
}.

(** ** A state and exception monad *)

Inductive Res (E A : Type) :=
  | Return (a : A)
  | Raise (e : E).
Arguments Return {E A} a.
Arguments Raise {E A} e.

(** A computation over a state [S] that returns an [A] or raises an [E];
    the state reached is kept when it raises. *)
Definition M (E S A : Type) : Type := S → Res E A * S.

Definition ret {E S A} (a : A) : M E S A := λ s, (Return a, s).

Definition raise {E S A} (e : E) : M E S A := λ s, (Raise e, s).

Definition bind {E S A B} (m : M E S A) (k : A → M E S B) : M E S B :=
  λ s, match m s with
       | (Return a, s') => k a s'
       | (Raise e, s') => (Raise e, s')
       end.

(** With these instances [x ← m; k] and [m ;; k] are [bind]. *)
#[export] Instance M_ret {E S} : MRet (M E S) := λ A, ret.
#[export] Instance M_bind {E S} : MBind (M E S) := λ A B k m, bind m k.

(** [try: body  except Exception as e: handler e] *)
Definition try_except {E S A} (body : M E S A) (handler : E → M E S A) : M E S A :=
  λ s, match body s with
       | (Return a, s') => (Return a, s')
       | (Raise e, s') => handler e s'
       end.

(** [try: body  except subprocess.CalledProcessError as e: handler e]; any
    other exception goes on to the caller. *)
Definition try_except_CalledProcessError {S A}
    (body : M PyExc S A) (handler : Z → string → string → string → M PyExc S A)
  : M PyExc S A :=
  λ s, match body s with
       | (Return a, s') => (Return a, s')
       | (Raise (CalledProcessError rc cmd out err), s') => handler rc cmd out err s'
       | (Raise (OtherException f), s') => (Raise (OtherException f), s')
       end.

(** Run [m] with its exceptions seen through [f]. *)
Definition map_exc {E E' S A} (f : E → E') (m : M E S A) : M E' S A :=
  λ s, match m s with
       | (Return a, s') => (Return a, s')
       | (Raise e, s') => (Raise (f e), s')
       end.

(** The locals of [execute_code] that its handler asks about. *)
Record Frame := mkFrame { code_file_path : option string }.

(** Run a computation on the world inside a function that has locals. *)
Definition in_world {E A} (m : M E World A) : M E (Frame * World) A :=
  λ s, let '(r, w') := m s.2 in (r, (s.1, w')).

Definition assign_code_file_path {E} (p : string) : M E (Frame * World) unit :=
  λ s, (Return (), (mkFrame (Some p), s.2)).

(** [locals()], for the handler's ['code_file_path' in locals()]. *)
Definition locals {E} : M E (Frame * World) Frame := λ s, (Return s.1, s).

(** Reading [code_file_path]; Python raises when a local is read before it
    is bound. *)
Definition read_code_file_path : M Fault (Frame * World) string :=
  λ s, match code_file_path s.1 with
       | Some p => (Return p, s)
       | None =>
           (Raise (mkFault "UnboundLocalError"
                     "cannot access local variable 'code_file_path' where it is not associated with a value"),
            s)
       end.

(** ** Effects *)

Definition logger (lvl : Level) (msg : string) {E} : M E World unit :=
  λ w, (Return (), mkWorld (files w) (log w ++ [(lvl, msg)]) (launched w)).

Definition of_fault (o : option Fault) {S} : M Fault S unit :=
  match o with
  | Some e => raise e
  | None => ret ()
  end.

Section Effects.
Context (h : Host).

Definition os_makedirs (p : string) : M Fault World unit :=
  of_fault (host_makedirs h p).

(** [open(p, 'w', encoding='utf-8')]: the file is created or cut to
    nothing. *)
Definition open_w (p : string) : M Fault World unit :=
  λ w, match host_open_w h p with
       | Some e => (Raise e, w)
       | None => (Return (), mkWorld (<[p := ""]> (files w)) (log w) (launched w))
       end.

(** [f.write(text)] and the close at the end of the [with] block. *)
Definition write_close (p text : string) : M Fault World unit :=
  λ w, match host_write h p text with
       | None => (Return (), mkWorld (<[p := text]> (files w)) (log w) (launched w))
       | Some (e, part) => (Raise e, mkWorld (<[p := part]> (files w)) (log w) (launched w))
       end.

(** [with open(p, 'w', encoding='utf-8') as f: f.write(text)] *)
Definition write_text (p text : string) : M Fault World unit :=
  open_w p ;; write_close p text.

(** [subprocess.run(cmd, shell=True, capture_output=True, text=True, cwd=cwd)] *)
Definition subprocess_run (cmd cwd : string) : M Fault World CompletedProcess :=
  λ w, let '(r, fs) := host_spawn h cmd cwd (files w) in
       let w' := mkWorld fs (log w) (launched w ++ [(cmd, cwd)]) in
       match r with
       | inl e => (Raise e, w')
       | inr cp => (Return cp, w')
       end.

(** The same with [check=True]: a non-zero exit status is raised. *)
Definition subprocess_run_check (cmd cwd : string) : M PyExc World CompletedProcess :=
  result ← map_exc OtherException (subprocess_run cmd cwd);
  if decide (returncode result = 0%Z) then ret result
  else raise (CalledProcessError (returncode result) cmd (stdout result) (stderr result)).

End Effects.

(** ** The tools *)

Definition FINAL_ANSWER_HINT : string :=
  String "010" (String "010" "If you have completed all tasks, respond with FINAL ANSWER.").

Section Tools.
Context {P : OsPath} (h : Host) (WORKING_DIRECTORY : string).

(** The body of the [try] of [execute_code]. *)
Definition execute_code_try (input_code codefile_name : string)
  : M Fault (Frame * World) (gmap string string) :=
  in_world (os_makedirs h WORKING_DIRECTORY) ;;
  (if os_path_isabs codefile_name
   then assign_code_file_path codefile_name
   else assign_code_file_path (os_path_join WORKING_DIRECTORY codefile_name)) ;;
  code_file_path ← read_code_file_path;
  assign_code_file_path (os_path_normpath code_file_path) ;;
  code_file_path ← read_code_file_path;
  in_world (logger INFO ("Code will be written to file: " +:+ code_file_path)) ;;
  in_world (write_text h code_file_path input_code) ;;
  in_world (logger INFO ("Code has been written to file: " +:+ code_file_path)) ;;
  let command := "python " +:+ code_file_path in
  in_world (logger INFO ("Executing command: " +:+ command)) ;;
  result ← in_world (subprocess_run h command WORKING_DIRECTORY);
  let output := stdout result in
  let error_output := stderr result in
  if decide (returncode result = 0%Z) then
    in_world (logger INFO "Code executed successfully") ;;
    ret (<["file_path" := code_file_path]>
         (<["output" := output +:+ FINAL_ANSWER_HINT]>
          (<["result" := "Code executed successfully"]> ∅)))
  else
    in_world (logger ERROR ("Code execution failed: " +:+ error_output)) ;;
    ret (<["file_path" := code_file_path]>
         (<["error" := error_output]>
          (<["result" := "Failed to execute"]> ∅))).

(** The [except Exception as e] of [execute_code]. *)
Definition execute_code_except (e : Fault)
  : M Fault (Frame * World) (gmap string string) :=
  in_world (logger ERROR "An error occurred while executing code") ;;
  l ← locals;
  ret (<["file_path" := match code_file_path l with
                        | Some p => p
                        | None => "Unknown"
                        end]>
       (<["error" := fault_msg e]>
        (<["result" := "Error occurred"]> ∅))).

(** [execute_code(input_code, codefile_name)]: the call starts with no
    local bound and gives its locals up when it returns. *)
Definition execute_code (input_code codefile_name : string)
  : M Fault World (gmap string string) :=
  λ w, let '(r, s) := try_except (execute_code_try input_code codefile_name)
                                 execute_code_except (mkFrame None, w) in
       (r, s.2).

Definition execute_command (command : string) : M PyExc World string :=
  try_except_CalledProcessError
    (logger INFO ("Executing command: " +:+ command) ;;
     result ← subprocess_run_check h command WORKING_DIRECTORY;
     logger INFO "Command executed successfully" ;;
     ret (stdout result))
    (λ _ _ _ e_stderr,
       logger ERROR ("Error executing command: " +:+ e_stderr) ;;
       ret ("Error: " +:+ e_stderr)).

End Tools.

(** ** What a call meets *)

Section Calls.
Context {P : OsPath} (h : Host) (WORKING_DIRECTORY : string).

(** The path that [execute_code] binds to [code_file_path]. *)
Definition resolved_path (codefile_name : string) : string :=
  os_path_normpath (if os_path_isabs codefile_name then codefile_name
                    else os_path_join WORKING_DIRECTORY codefile_name).

(** The call [execute_code(input_code, codefile_name)] in world [w] gets
    as far as a child process, which exits as [cp] and leaves the files
    [fs]. *)
Definition runs_to_exit (input_code codefile_name : string) (w : World)
    (cp : CompletedProcess) (fs : gmap string string) : Prop :=
  let p := resolved_path codefile_name in
  host_makedirs h WORKING_DIRECTORY = None
  ∧ host_open_w h p = None
  ∧ host_write h p input_code = None
  ∧ host_spawn h ("python " +:+ p) WORKING_DIRECTORY (<[p := input_code]> (files w))
    = (inr cp, fs).

(** Where a call can fault before any exit status is seen. *)
Inductive FaultPoint := AtMakedirs | AtOpen | AtWrite | AtLaunch.

(** The call meets the fault [e] at [pt], everything before having gone
    well. *)
Definition meets_fault (input_code codefile_name : string) (w : World)
    (pt : FaultPoint) (e : Fault) : Prop :=
  let p := resolved_path codefile_name in
  match pt with
  | AtMakedirs => host_makedirs h WORKING_DIRECTORY = Some e
  | AtOpen => host_makedirs h WORKING_DIRECTORY = None ∧ host_open_w h p = Some e
  | AtWrite =>
      host_makedirs h WORKING_DIRECTORY = None ∧ host_open_w h p = None
      ∧ ∃ part, host_write h p input_code = Some (e, part)
  | AtLaunch =>
      host_makedirs h WORKING_DIRECTORY = None ∧ host_open_w h p = None
      ∧ host_write h p input_code = None
      ∧ (host_spawn h ("python " +:+ p) WORKING_DIRECTORY
           (<[p := input_code]> (files w))).1 = inl e
  end.


End Calls.

(** ** The shell *)

Module Shell.

Definition is_blank (c : ascii) : bool :=
  bool_decide (c = " "%char) || bool_decide (c = "009"%char).

(** The characters that mean something to [sh]: quoting, expansion,
    redirection, control operators, comments and patterns. *)
Definition is_special (c : ascii) : bool :=
  bool_decide (c ∈ [ "010"; "|"; "&"; ";"; "<"; ">"; "("; ")"; "$"; "`"; "\";
                     "034"; "'"; "*"; "?"; "["; "]"; "#"; "~"; "="; "%"; "!";
                     "{"; "}" ]%char).

Fixpoint forallb_string (f : ascii → bool) (s : string) : bool :=
  match s with
  | EmptyString => true
  | String c s' => f c && forallb_string f s'
  end.

Definition plain (s : string) : bool := forallb_string (λ c, negb (is_special c)) s.

Definition words (s : string) : list string :=
  filter (λ w, w ≠ "") (Str.split_on is_blank s).

(** The argument vector that [sh -c cmd] starts for a simple command
    with nothing special in it: its words.  Other command lines are
    outside this fragment. *)
Definition argv (cmd : string) : option (list string) :=
  if plain cmd then Some (words cmd) else None.

End Shell.

(** ** A scripted host *)

(** A host to run the tools on: it never faults before the launch, and its
    [python] knows three snippets. *)
Module Scripted.

Definition interpret (source : string) : CompletedProcess :=
  if decide (source = "print(1+1)") then mkCompleted 0 (String "2" (String "010" "")) ""
  else if decide (source = "raise ValueError('x')") then
    mkCompleted 1 "" ("ValueError: x" +:+ String "010" "")
  else mkCompleted 0 "" "".

Definition python (args : list string) (fs : gmap string string) : CompletedProcess :=
  match args with
  | [] => mkCompleted 0 "" ""
  | script :: _ =>
      match fs !! script with
      | Some source => interpret source
      | None =>
          mkCompleted 2 ""
            ("python: can't open file '" +:+ script
             +:+ "': [Errno 2] No such file or directory" +:+ String "010" "")
      end
  end.

(** [printf '\377'] writes a byte that is no UTF-8 text, so reading the
    stream as text faults; [exit 3] and [echo hello] do what they say. *)
Definition spawn (cmd cwd : string) (fs : gmap string string)
  : (Fault + CompletedProcess) * gmap string string :=
  if decide (cmd = "printf '\377'") then
    (inl (mkFault "UnicodeDecodeError"
            "'utf-8' codec can't decode byte 0xff in position 0: invalid start byte"), fs)
  else if decide (cmd = "exit 3") then (inr (mkCompleted 3 "" ""), fs)
  else if decide (cmd = "echo hello") then
    (inr (mkCompleted 0 ("hello" +:+ String "010" "") ""), fs)
  else
    match Shell.argv cmd with
    | Some ("python" :: args) => (inr (python args fs), fs)
    | _ => (inr (mkCompleted 127 "" ("sh: 1: not found" +:+ String "010" "")), fs)
    end.

Definition host : Host := mkHost (λ _, None) (λ _, None) (λ _ _, None) spawn.

(** The same host with a working directory that cannot be made. *)
Definition host_no_dir : Host :=
  mkHost (λ p, Some (mkFault "PermissionError"
                       ("[Errno 13] Permission denied: '" +:+ p +:+ "'")))
         (λ _, None) (λ _ _, None) spawn.

Definition world0 : World := mkWorld ∅ [] [].

End Scripted.

(** ** A snippet that runs once *)

(** A host for one deterministic snippet that looks at what an earlier run
    left behind: it leaves the file [done] in its directory and fails when
    the file is already there.  [sys.exit] with a string prints it to stderr
    and exits with 1. *)
Module Marker.


(** What [python] does with [code] when it is started in [/data]. *)
Definition spawn (cmd cwd : string) (fs : gmap string string)
  : (Fault + CompletedProcess) * gmap string string :=
  match fs !! "/data/done" with
  | Some _ => (inr (mkCompleted 1 "" ("already done" +:+ String "010" "")), fs)
  | None => (inr (mkCompleted 0 "" ""), <["/data/done" := ""]> fs)
  end.

Definition host : Host := mkHost (λ _, None) (λ _, None) (λ _ _, None) spawn.

End Marker.

(** ** Import time *)

(** What the module asks of the host when it is imported:
    [os.path.exists(p)] and the fault of [os.makedirs(p)], if any. *)
Record ImportHost := mkImportHost {
  import_exists : string → bool;
  import_makedirs : string → option Fault;
}.

(** The statements at module level, after the logger is set up: lines
    12 to 15 and the last line.  There is no handler around them. *)
Definition module_init (ih : ImportHost) (WORKING_DIRECTORY : string)
  : M Fault World unit :=
  (if negb (import_exists ih WORKING_DIRECTORY) then
     of_fault (import_makedirs ih WORKING_DIRECTORY) ;;
     logger INFO ("Created storage directory: " +:+ WORKING_DIRECTORY)
   else ret ()) ;;
  logger INFO "Module initialized successfully".

(** ** Paths in normal form *)

(** No [/] in [s]. *)
Definition no_sep (s : string) : bool :=
  Shell.forallb_string (λ c, negb (PosixPath.is_sep c)) s.

(** A component that [normpath] keeps: not empty, not [.], no [/] in it. *)
Definition is_name (comp : string) : Prop :=
  comp ≠ "" ∧ comp ≠ "." ∧ no_sep comp = true.

(** The components [normpath] ends with: names, the [..] among them all
    at the front, and none at all under a leading slash. *)
Definition normal_comps (slashes : nat) (comps : list string) : Prop :=
  Forall is_name comps
  ∧ ∃ n rest, comps = replicate n ".." ++ rest
            ∧ Forall (λ c, c ≠ "..") rest
            ∧ (slashes ≠ 0 → n = 0).

(** The last lines of [normpath]: the path of the components [comps] after
    [k] slashes, or [.] when that is empty. *)
Definition assemble (k : nat) (comps : list string) : string :=
  let joined := Str.join_with "/" comps in
  let res := match k with
             | 0 => joined
             | 1 => "/" +:+ joined
             | _ => "//" +:+ joined
             end in
  if Str.is_empty res then "." else res.

(** * Properties *)

Example normpath_dots : PosixPath.normpath "/data/./a/../b//code.py" = "/data/b/code.py".
Proof. reflexivity. Qed.

Example normpath_relative_up : PosixPath.normpath "../x/.." = "..".
Proof. reflexivity. Qed.

Example normpath_two_slashes : PosixPath.normpath "//a/../.." = "//".
Proof. reflexivity. Qed.

Example join_relative : PosixPath.join "/data" "code.py" = "/data/code.py".
Proof. reflexivity. Qed.

Example join_absolute : PosixPath.join "/data" "/tmp/code.py" = "/tmp/code.py".
Proof. reflexivity. Qed.

Example run_print :
  (execute_code Scripted.host "/data" "print(1+1)" "code.py" Scripted.world0).1
  = Return (<["file_path" := "/data/code.py"]>
            (<["output" := String "2" (String "010" "") +:+ FINAL_ANSWER_HINT]>
             (<["result" := "Code executed successfully"]> ∅))).
Proof. vm_compute. reflexivity. Qed.

Example run_raise :
  (execute_code Scripted.host "/data" "raise ValueError('x')" "code.py" Scripted.world0).1
  = Return (<["file_path" := "/data/code.py"]>
            (<["error" := "ValueError: x" +:+ String "010" ""]>
             (<["result" := "Failed to execute"]> ∅))).
Proof. vm_compute. reflexivity. Qed.

Example run_echo :
  (execute_command Scripted.host "/data" "echo hello" Scripted.world0).1
  = Return ("hello" +:+ String "010" "").
Proof. reflexivity. Qed.

Example run_exit_3 :
  (execute_command Scripted.host "/data" "exit 3" Scripted.world0).1 = Return "Error: ".
Proof. reflexivity. Qed.

Example words_python : Shell.argv "python /data/code.py" = Some ["python"; "/data/code.py"].
Proof. reflexivity. Qed.

(** ** The equations of [execute_code] *)

Ltac unfold_tools :=
  unfold execute_code, execute_command, execute_code_try, execute_code_except,
    try_except, try_except_CalledProcessError, subprocess_run_check, map_exc,
    subprocess_run, write_text, open_w, write_close, os_makedirs, of_fault,
    in_world, assign_code_file_path, read_code_file_path, locals, logger, mbind, M_bind, bind,
    mret, M_ret, ret, raise, resolved_path in *.

Section Equations.
Context {P : OsPath} (h : Host) (WORKING_DIRECTORY : string).
Implicit Types (w : World) (e : Fault) (cp : CompletedProcess).

Local Abbreviation p_of name := (resolved_path WORKING_DIRECTORY name).

(** No directory, no path: the handler finds no [code_file_path]. *)
Lemma execute_code_at_makedirs input_code codefile_name w e :
  host_makedirs h WORKING_DIRECTORY = Some e →
  execute_code h WORKING_DIRECTORY input_code codefile_name w
  = (Return (<["file_path" := "Unknown"]>
             (<["error" := fault_msg e]>
              (<["result" := "Error occurred"]> ∅))),
     mkWorld (files w)
             (log w ++ [(ERROR, "An error occurred while executing code")])
             (launched w)).
Proof. intros H. unfold_tools. cbn. rewrite H. reflexivity. Qed.

Lemma execute_code_at_open input_code codefile_name w e :
  host_makedirs h WORKING_DIRECTORY = None →
  host_open_w h (p_of codefile_name) = Some e →
  execute_code h WORKING_DIRECTORY input_code codefile_name w
  = (Return (<["file_path" := p_of codefile_name]>
             (<["error" := fault_msg e]>
              (<["result" := "Error occurred"]> ∅))),
     mkWorld (files w)
             ((log w ++ [(INFO, "Code will be written to file: " +:+ p_of codefile_name)])
              ++ [(ERROR, "An error occurred while executing code")])
             (launched w)).
Proof.
  intros H1 H2. unfold_tools. cbn. rewrite H1. cbn.
  destruct (os_path_isabs codefile_name); cbn; rewrite H2; reflexivity.
Qed.

Lemma execute_code_at_write input_code codefile_name w e part :
  host_makedirs h WORKING_DIRECTORY = None →
  host_open_w h (p_of codefile_name) = None →
  host_write h (p_of codefile_name) input_code = Some (e, part) →
  execute_code h WORKING_DIRECTORY input_code codefile_name w
  = (Return (<["file_path" := p_of codefile_name]>
             (<["error" := fault_msg e]>
              (<["result" := "Error occurred"]> ∅))),
     mkWorld (<[p_of codefile_name := part]> (files w))
             ((log w ++ [(INFO, "Code will be written to file: " +:+ p_of codefile_name)])
              ++ [(ERROR, "An error occurred while executing code")])
             (launched w)).
Proof.
  intros H1 H2 H3. unfold_tools. cbn. rewrite H1. cbn.
  destruct (os_path_isabs codefile_name); cbn; rewrite H2; cbn; rewrite H3; cbn;
    rewrite insert_insert_eq; reflexivity.
Qed.

(** From here on the file is written and the child is started. *)
Ltac to_the_launch H1 H2 H3 H4 :=
  unfold_tools; cbn; rewrite H1; cbn;
  destruct (os_path_isabs _); cbn; rewrite H2; cbn; rewrite H3; cbn;
  rewrite insert_insert_eq, H4; cbn.

Lemma execute_code_at_launch input_code codefile_name w e fs :
  host_makedirs h WORKING_DIRECTORY = None →
  host_open_w h (p_of codefile_name) = None →
  host_write h (p_of codefile_name) input_code = None →
  host_spawn h ("python " +:+ p_of codefile_name) WORKING_DIRECTORY
    (<[p_of codefile_name := input_code]> (files w)) = (inl e, fs) →
  execute_code h WORKING_DIRECTORY input_code codefile_name w
  = (Return (<["file_path" := p_of codefile_name]>
             (<["error" := fault_msg e]>
              (<["result" := "Error occurred"]> ∅))),
     mkWorld fs
             (((((log w
                  ++ [(INFO, "Code will be written to file: " +:+ p_of codefile_name)])
                 ++ [(INFO, "Code has been written to file: " +:+ p_of codefile_name)])
                ++ [(INFO, "Executing command: " +:+ "python " +:+ p_of codefile_name)]))
              ++ [(ERROR, "An error occurred while executing code")])
             (launched w ++ [("python " +:+ p_of codefile_name, WORKING_DIRECTORY)])).
Proof. intros H1 H2 H3 H4. to_the_launch H1 H2 H3 H4; reflexivity. Qed.

Lemma execute_code_at_exit_zero input_code codefile_name w cp fs :
  runs_to_exit h WORKING_DIRECTORY input_code codefile_name w cp fs →
  returncode cp = 0%Z →
  execute_code h WORKING_DIRECTORY input_code codefile_name w
  = (Return (<["file_path" := p_of codefile_name]>
             (<["output" := stdout cp +:+ FINAL_ANSWER_HINT]>
              (<["result" := "Code executed successfully"]> ∅))),
     mkWorld fs
             (((((log w
                  ++ [(INFO, "Code will be written to file: " +:+ p_of codefile_name)])
                 ++ [(INFO, "Code has been written to file: " +:+ p_of codefile_name)])
                ++ [(INFO, "Executing command: " +:+ "python " +:+ p_of codefile_name)]))
              ++ [(INFO, "Code executed successfully")])
             (launched w ++ [("python " +:+ p_of codefile_name, WORKING_DIRECTORY)])).
Proof.
  intros (H1 & H2 & H3 & H4) Hrc.
  to_the_launch H1 H2 H3 H4; (destruct (decide _) as [_|Hne]; [reflexivity | done]).
Qed.

Lemma execute_code_at_exit_nonzero input_code codefile_name w cp fs :
  runs_to_exit h WORKING_DIRECTORY input_code codefile_name w cp fs →
  returncode cp ≠ 0%Z →
  execute_code h WORKING_DIRECTORY input_code codefile_name w
  = (Return (<["file_path" := p_of codefile_name]>
             (<["error" := stderr cp]>
              (<["result" := "Failed to execute"]> ∅))),
     mkWorld fs
             (((((log w
                  ++ [(INFO, "Code will be written to file: " +:+ p_of codefile_name)])
                 ++ [(INFO, "Code has been written to file: " +:+ p_of codefile_name)])
                ++ [(INFO, "Executing command: " +:+ "python " +:+ p_of codefile_name)]))
              ++ [(ERROR, "Code execution failed: " +:+ stderr cp)])
             (launched w ++ [("python " +:+ p_of codefile_name, WORKING_DIRECTORY)])).
Proof.
  intros (H1 & H2 & H3 & H4) Hrc.
  to_the_launch H1 H2 H3 H4; (destruct (decide _) as [Heq|_]; [done | reflexivity]).
Qed.

(** A call gets to an exit status or meets a fault on the way. *)
Lemma exit_or_fault input_code codefile_name w :
  (∃ cp fs, runs_to_exit h WORKING_DIRECTORY input_code codefile_name w cp fs)
  ∨ (∃ pt e, meets_fault h WORKING_DIRECTORY input_code codefile_name w pt e).
Proof.
  unfold runs_to_exit.
  destruct (host_makedirs h WORKING_DIRECTORY) as [e|] eqn:H1;
    [right; by exists AtMakedirs, e|].
  destruct (host_open_w h (p_of codefile_name)) as [e|] eqn:H2;
    [right; by exists AtOpen, e|].
  destruct (host_write h (p_of codefile_name) input_code) as [[e part]|] eqn:H3;
    [right; exists AtWrite, e; cbn; eauto|].
  destruct (host_spawn h ("python " +:+ p_of codefile_name) WORKING_DIRECTORY
              (<[p_of codefile_name := input_code]> (files w))) as [[e|cp] fs] eqn:H4.
  - right. exists AtLaunch, e. cbn. rewrite H4. done.
  - left. by exists cp, fs.
Qed.

(** The two cannot both be. *)
Lemma exit_excludes_fault input_code codefile_name w cp fs pt e :
  runs_to_exit h WORKING_DIRECTORY input_code codefile_name w cp fs →
  meets_fault h WORKING_DIRECTORY input_code codefile_name w pt e → False.
Proof.
  intros (H1 & H2 & H3 & H4). destruct pt; cbn.
  - congruence.
  - intros [_ ?]. congruence.
  - intros (_ & _ & part & ?). congruence.
  - intros (_ & _ & _ & H). rewrite H4 in H. discriminate.
Qed.

(** The dict of the handler, at every place a fault can come from. *)
Lemma execute_code_at_fault input_code codefile_name w pt e :
  meets_fault h WORKING_DIRECTORY input_code codefile_name w pt e →
  (execute_code h WORKING_DIRECTORY input_code codefile_name w).1
  = Return (<["file_path" := match pt with
                             | AtMakedirs => "Unknown"
                             | _ => p_of codefile_name
                             end]>
            (<["error" := fault_msg e]>
             (<["result" := "Error occurred"]> ∅))).
Proof.
  destruct pt; cbn.
  - intros H. by rewrite (execute_code_at_makedirs _ _ _ _ H).
  - intros [H1 H2]. by rewrite (execute_code_at_open _ _ _ _ H1 H2).
  - intros (H1 & H2 & part & H3). by rewrite (execute_code_at_write _ _ _ _ _ H1 H2 H3).
  - intros (H1 & H2 & H3 & H4).
    destruct (host_spawn h _ _ _) as [r fs] eqn:Hs. cbn in H4. subst r.
    by rewrite (execute_code_at_launch _ _ _ _ _ H1 H2 H3 Hs).
Qed.

End Equations.


(** ** [execute_code]: the child exits *)

Section ExecuteCode.
Context {P : OsPath} (h : Host) (WORKING_DIRECTORY : string).
Implicit Types (w : World) (e : Fault) (cp : CompletedProcess).

Local Abbreviation p_of name := (resolved_path WORKING_DIRECTORY name).

(** C1: when the child of an [execute_code] call exits with code 0, the call
    returns the success dict, whose ["output"] is the captured stdout followed
    by the completion hint (two newlines and "If you have completed all
    tasks, respond with FINAL ANSWER."), so the output ends with the hint. *)
Theorem execute_code_exit_zero input_code codefile_name w cp fs :
  runs_to_exit h WORKING_DIRECTORY input_code codefile_name w cp fs →
  returncode cp = 0%Z →
  ∃ d, (execute_code h WORKING_DIRECTORY input_code codefile_name w).1 = Return d
     ∧ d = <["file_path" := p_of codefile_name]>
           (<["output" := stdout cp +:+ FINAL_ANSWER_HINT]>
            (<["result" := "Code executed successfully"]> ∅))
     ∧ d !! "result" = Some "Code executed successfully"
     ∧ d !! "output" = Some (stdout cp +:+ FINAL_ANSWER_HINT)
     ∧ Str.ends_with (stdout cp +:+ FINAL_ANSWER_HINT) FINAL_ANSWER_HINT
     ∧ FINAL_ANSWER_HINT
       = String "010" (String "010"
           "If you have completed all tasks, respond with FINAL ANSWER.").
Proof.
  intros Hrun Hrc. eexists. split.
  - by rewrite (execute_code_at_exit_zero _ _ _ _ _ _ _ Hrun Hrc).
  - split_and!; try done. by exists (stdout cp).
Qed.

(** C4: when the child exits with a non-zero code, the call returns (it does
    not raise) the failure dict: ["error"] is the captured stderr and there
    is no ["output"]. *)
Theorem execute_code_exit_nonzero input_code codefile_name w cp fs :
  runs_to_exit h WORKING_DIRECTORY input_code codefile_name w cp fs →
  returncode cp ≠ 0%Z →
  ∃ d, (execute_code h WORKING_DIRECTORY input_code codefile_name w).1 = Return d
     ∧ d = <["file_path" := p_of codefile_name]>
           (<["error" := stderr cp]>
            (<["result" := "Failed to execute"]> ∅))
     ∧ d !! "result" = Some "Failed to execute"
     ∧ d !! "error" = Some (stderr cp)
     ∧ d !! "output" = None.
Proof.
  intros Hrun Hrc. eexists. split.
  - by rewrite (execute_code_at_exit_nonzero _ _ _ _ _ _ _ Hrun Hrc).
  - done.
Qed.

End ExecuteCode.

(** [print(1+1)] in the default file on the scripted host. *)
Lemma execute_code_exit_zero_witness :
  runs_to_exit Scripted.host "/data" "print(1+1)" "code.py" Scripted.world0
    (mkCompleted 0 (String "2" (String "010" "")) "")
    (<["/data/code.py" := "print(1+1)"]> ∅)
  ∧ ∃ d, (execute_code Scripted.host "/data" "print(1+1)" "code.py" Scripted.world0).1
         = Return d
       ∧ d !! "output" = Some (String "2" (String "010" "") +:+ FINAL_ANSWER_HINT).
Proof.
  assert (Hrun : runs_to_exit Scripted.host "/data" "print(1+1)" "code.py" Scripted.world0
                   (mkCompleted 0 (String "2" (String "010" "")) "")
                   (<["/data/code.py" := "print(1+1)"]> ∅))
    by (repeat split; vm_compute; reflexivity).
  split; [exact Hrun|].
  destruct (execute_code_exit_zero _ _ _ _ _ _ _ Hrun eq_refl) as (d & Hd & _ & _ & Hout & _).
  exists d. split; [exact Hd | exact Hout].
Defined.

(** [raise ValueError('x')] on the scripted host. *)
Lemma execute_code_exit_nonzero_witness :
  runs_to_exit Scripted.host "/data" "raise ValueError('x')" "code.py" Scripted.world0
    (mkCompleted 1 "" ("ValueError: x" +:+ String "010" ""))
    (<["/data/code.py" := "raise ValueError('x')"]> ∅)
  ∧ ∃ d, (execute_code Scripted.host "/data" "raise ValueError('x')" "code.py"
            Scripted.world0).1 = Return d
       ∧ d !! "error" = Some ("ValueError: x" +:+ String "010" "")
       ∧ d !! "output" = None.
Proof.
  assert (Hrun : runs_to_exit Scripted.host "/data" "raise ValueError('x')" "code.py"
                   Scripted.world0
                   (mkCompleted 1 "" ("ValueError: x" +:+ String "010" ""))
                   (<["/data/code.py" := "raise ValueError('x')"]> ∅))
    by (repeat split; vm_compute; reflexivity).
  split; [exact Hrun|].
  assert (Hrc : returncode (mkCompleted 1 "" ("ValueError: x" +:+ String "010" "")) ≠ 0%Z)
    by (cbn; lia).
  destruct (execute_code_exit_nonzero _ _ _ _ _ _ _ Hrun Hrc) as (d & Hd & _ & _ & Herr & Hout).
  exists d. split; [exact Hd | split; [exact Herr | exact Hout]].
Defined.

(** ** [execute_code]: the path *)

Section ResolvedPath.
Context {P : OsPath} (h : Host) (WORKING_DIRECTORY : string).
Implicit Types (w : World) (e : Fault) (cp : CompletedProcess).

Local Abbreviation p_of name := (resolved_path WORKING_DIRECTORY name).

(** Once the directory is there the path is announced in the log, whatever
    comes next, and nothing but [python] on that path is launched. *)
Lemma execute_code_uses_path input_code codefile_name w :
  host_makedirs h WORKING_DIRECTORY = None →
  ∃ d w' rest,
    execute_code h WORKING_DIRECTORY input_code codefile_name w = (Return d, w')
    ∧ d !! "file_path" = Some (p_of codefile_name)
    ∧ log w' = log w ++ (INFO, "Code will be written to file: " +:+ p_of codefile_name) :: rest
    ∧ (launched w' = launched w
       ∨ launched w' = launched w ++ [("python " +:+ p_of codefile_name, WORKING_DIRECTORY)]).
Proof.
  intros Hdir.
  destruct (exit_or_fault h WORKING_DIRECTORY input_code codefile_name w)
    as [(cp & fs & Hrun) | (pt & e & Hf)].
  - destruct (decide (returncode cp = 0%Z)) as [Hrc|Hrc].
    + rewrite (execute_code_at_exit_zero _ _ _ _ _ _ _ Hrun Hrc).
      do 3 eexists. split_and!; [done | done | | by right].
      cbn. rewrite <- !app_assoc. reflexivity.
    + rewrite (execute_code_at_exit_nonzero _ _ _ _ _ _ _ Hrun Hrc).
      do 3 eexists. split_and!; [done | done | | by right].
      cbn. rewrite <- !app_assoc. reflexivity.
  - destruct pt; cbn in Hf.
    + congruence.
    + destruct Hf as [H1 H2]. rewrite (execute_code_at_open _ _ _ _ _ _ H1 H2).
      do 3 eexists. split_and!; [done | done | | by left].
      cbn. rewrite <- !app_assoc. reflexivity.
    + destruct Hf as (H1 & H2 & part & H3).
      rewrite (execute_code_at_write _ _ _ _ _ _ _ H1 H2 H3).
      do 3 eexists. split_and!; [done | done | | by left].
      cbn. rewrite <- !app_assoc. reflexivity.
    + destruct Hf as (H1 & H2 & H3 & H4).
      destruct (host_spawn h _ _ _) as [r fs] eqn:Hs. cbn in H4. subst r.
      rewrite (execute_code_at_launch _ _ _ _ _ _ _ H1 H2 H3 Hs).
      do 3 eexists. split_and!; [done | done | | by right].
      cbn. rewrite <- !app_assoc. reflexivity.
Qed.

(** C3: the path [execute_code] resolves, reports under ["file_path"], names
    in its log and hands to [python] is [normpath(codefile_name)] when the
    name is absolute, with no part of the working directory in it, and
    [normpath(join(WORKING_DIRECTORY, codefile_name))] when it is relative. *)
Theorem execute_code_resolved_path input_code codefile_name w :
  host_makedirs h WORKING_DIRECTORY = None →
  ∃ d w' p rest,
    execute_code h WORKING_DIRECTORY input_code codefile_name w = (Return d, w')
    ∧ d !! "file_path" = Some p
    ∧ log w' = log w ++ (INFO, "Code will be written to file: " +:+ p) :: rest
    ∧ (launched w' = launched w
       ∨ launched w' = launched w ++ [("python " +:+ p, WORKING_DIRECTORY)])
    ∧ (os_path_isabs codefile_name = true → p = os_path_normpath codefile_name)
    ∧ (os_path_isabs codefile_name = false →
       p = os_path_normpath (os_path_join WORKING_DIRECTORY codefile_name)).
Proof.
  intros Hdir.
  destruct (execute_code_uses_path input_code codefile_name w Hdir)
    as (d & w' & rest & Hcall & Hpath & Hlog & Hlaunch).
  exists d, w', (p_of codefile_name), rest.
  split_and!; try done; unfold resolved_path; by intros ->.
Qed.

End ResolvedPath.

(** A relative name on the scripted host, under [/data]. *)
Lemma execute_code_resolved_path_witness :
  host_makedirs Scripted.host "/data" = None
  ∧ ∃ d w', execute_code Scripted.host "/data" "print(1+1)" "./sub/../code.py" Scripted.world0
            = (Return d, w')
          ∧ d !! "file_path" = Some "/data/code.py".
Proof.
  split; [reflexivity|].
  destruct (execute_code_resolved_path Scripted.host "/data" "print(1+1)" "./sub/../code.py"
              Scripted.world0 eq_refl)
    as (d & w' & p & rest & Hcall & Hpath & _ & _ & _ & Hrel).
  exists d, w'. split; [exact Hcall|].
  rewrite Hpath, (Hrel eq_refl). reflexivity.
Defined.

(** ** [execute_code]: faults *)

Section Faults.
Context {P : OsPath} (h : Host) (WORKING_DIRECTORY : string).
Implicit Types (w : World) (e : Fault) (fr : Frame).

Local Abbreviation p_of name := (resolved_path WORKING_DIRECTORY name).

(** When the [try] body raises, it does so at one of the four fault points,
    and [code_file_path] is bound unless that was [os.makedirs]. *)
Lemma execute_code_try_raises input_code codefile_name w e fr w' :
  execute_code_try h WORKING_DIRECTORY input_code codefile_name (mkFrame None, w)
  = (Raise e, (fr, w')) →
  ∃ pt, meets_fault h WORKING_DIRECTORY input_code codefile_name w pt e
      ∧ code_file_path fr = match pt with
                            | AtMakedirs => None
                            | _ => Some (p_of codefile_name)
                            end.
Proof.
  unfold_tools. cbn.
  destruct (host_makedirs h WORKING_DIRECTORY) as [e1|] eqn:H1; cbn.
  { intros [= <- <- <-]. by exists AtMakedirs. }
  destruct (os_path_isabs codefile_name) eqn:Habs; cbn.
  all: destruct (host_open_w h _) as [e2|] eqn:H2; cbn;
    [intros [= <- <- <-]; exists AtOpen;
     unfold meets_fault, resolved_path; rewrite Habs; eauto|].
  all: destruct (host_write h _ _) as [[e3 part]|] eqn:H3; cbn;
    [intros [= <- <- <-]; exists AtWrite;
     unfold meets_fault, resolved_path; rewrite Habs; eauto 10|].
  all: rewrite insert_insert_eq.
  all: destruct (host_spawn h _ _ _) as [[e4|cp] fs] eqn:H4; cbn;
    [intros [= <- <- <-]; exists AtLaunch;
     unfold meets_fault, resolved_path; rewrite Habs, H4; eauto 10|].
  all: destruct (decide _); cbn; discriminate.
Qed.

(** C7, amended: when a fault is raised in [execute_code] before an exit
    status is seen, the call returns the internal-error dict: ["error"] is
    the fault's message text, and ["file_path"] is the resolved path when
    [code_file_path] was bound before the fault (every fault but that of
    [os.makedirs]) and otherwise the literal "Unknown", with a capital U. *)
Theorem execute_code_fault_dict input_code codefile_name w e fr w' :
  execute_code_try h WORKING_DIRECTORY input_code codefile_name (mkFrame None, w)
  = (Raise e, (fr, w')) →
  ∃ d, (execute_code h WORKING_DIRECTORY input_code codefile_name w).1 = Return d
     ∧ d !! "result" = Some "Error occurred"
     ∧ d !! "error" = Some (fault_msg e)
     ∧ d !! "output" = None
     ∧ (∀ p, code_file_path fr = Some p →
             p = p_of codefile_name ∧ d !! "file_path" = Some p)
     ∧ (code_file_path fr = None → d !! "file_path" = Some "Unknown")
     ∧ (code_file_path fr = None ↔ host_makedirs h WORKING_DIRECTORY = Some e).
Proof.
  intros Htry.
  destruct (execute_code_try_raises _ _ _ _ _ _ Htry) as (pt & Hpt & Hfr).
  eexists. split; [exact (execute_code_at_fault _ _ _ _ _ _ _ Hpt)|].
  split_and!; try done.
  - intros p Hp. rewrite Hp in Hfr. destruct pt; by simplify_eq.
  - intros Hnone. rewrite Hnone in Hfr. destruct pt; by simplify_eq.
  - split.
    + intros Hnone. rewrite Hnone in Hfr. destruct pt; by simplify_eq.
    + intros Hmk. destruct pt; cbn in Hpt; [done | | |]; destruct Hpt as [Hmk' _]; congruence.
Qed.

End Faults.

(** C7 as first stated fails: with a working directory that cannot be made
    the fault comes before any path is resolved, and ["file_path"] is then
    "Unknown", not "unknown". *)
Lemma execute_code_sentinel_is_not_lowercase :
  ∃ d, (execute_code Scripted.host_no_dir "/data" "print(1+1)" "code.py"
          Scripted.world0).1 = Return d
     ∧ meets_fault Scripted.host_no_dir "/data" "print(1+1)" "code.py" Scripted.world0
         AtMakedirs (mkFault "PermissionError" "[Errno 13] Permission denied: '/data'")
     ∧ d !! "file_path" = Some "Unknown"
     ∧ d !! "file_path" ≠ Some "unknown".
Proof.
  eexists. split; [vm_compute; reflexivity|]. split_and!; done.
Qed.

(** The same call, for the amended statement. *)
Lemma execute_code_fault_dict_witness :
  ∃ d, (execute_code Scripted.host_no_dir "/data" "print(1+1)" "code.py"
          Scripted.world0).1 = Return d
     ∧ d !! "error" = Some "[Errno 13] Permission denied: '/data'"
     ∧ d !! "file_path" = Some "Unknown".
Proof.
  destruct (execute_code_fault_dict Scripted.host_no_dir "/data" "print(1+1)" "code.py"
              Scripted.world0
              (mkFault "PermissionError" "[Errno 13] Permission denied: '/data'")
              (mkFrame None) Scripted.world0 eq_refl)
    as (d & Hd & _ & Herr & _ & _ & Hunknown & _).
  exists d. split; [exact Hd|]. split; [exact Herr | exact (Hunknown eq_refl)].
Defined.

(** ** [execute_code]: the shape of the dict, and calling twice *)

Section Shape.
Context {P : OsPath} (h : Host) (WORKING_DIRECTORY : string).
Implicit Types (w : World) (e : Fault) (cp : CompletedProcess).

Local Abbreviation p_of name := (resolved_path WORKING_DIRECTORY name).

(** [execute_code] hands every fault of the host back as a dict. *)
Lemma execute_code_returns input_code codefile_name w :
  ∃ d, (execute_code h WORKING_DIRECTORY input_code codefile_name w).1 = Return d.
Proof.
  destruct (exit_or_fault h WORKING_DIRECTORY input_code codefile_name w)
    as [(cp & fs & Hrun) | (pt & e & Hf)].
  - destruct (decide (returncode cp = 0%Z)) as [Hrc|Hrc].
    + rewrite (execute_code_at_exit_zero _ _ _ _ _ _ _ Hrun Hrc). eauto.
    + rewrite (execute_code_at_exit_nonzero _ _ _ _ _ _ _ Hrun Hrc). eauto.
  - rewrite (execute_code_at_fault _ _ _ _ _ _ _ Hf). eauto.
Qed.

(** C10: whatever happens, [execute_code] returns a dict with the keys
    ["result"] and ["file_path"] and exactly one of ["output"] and
    ["error"]: ["output"] when the child exited with 0, ["error"] when it
    exited with another code or a fault was caught. *)
Theorem execute_code_dict_keys input_code codefile_name w :
  ∃ d, (execute_code h WORKING_DIRECTORY input_code codefile_name w).1 = Return d
     ∧ is_Some (d !! "result")
     ∧ is_Some (d !! "file_path")
     ∧ (is_Some (d !! "output") ↔ d !! "error" = None)
     ∧ ((is_Some (d !! "output") ∧ d !! "error" = None
         ∧ d !! "result" = Some "Code executed successfully"
         ∧ ∃ cp fs, runs_to_exit h WORKING_DIRECTORY input_code codefile_name w cp fs
                  ∧ returncode cp = 0%Z)
        ∨ (is_Some (d !! "error") ∧ d !! "output" = None
           ∧ d !! "result" = Some "Failed to execute"
           ∧ ∃ cp fs, runs_to_exit h WORKING_DIRECTORY input_code codefile_name w cp fs
                    ∧ returncode cp ≠ 0%Z)
        ∨ (is_Some (d !! "error") ∧ d !! "output" = None
           ∧ d !! "result" = Some "Error occurred"
           ∧ ∃ pt e, meets_fault h WORKING_DIRECTORY input_code codefile_name w pt e)).
Proof.
  destruct (exit_or_fault h WORKING_DIRECTORY input_code codefile_name w)
    as [(cp & fs & Hrun) | (pt & e & Hf)].
  - destruct (decide (returncode cp = 0%Z)) as [Hrc|Hrc].
    + rewrite (execute_code_at_exit_zero _ _ _ _ _ _ _ Hrun Hrc).
      eexists; split; [reflexivity|]. split_and!; [by eexists | by eexists | |].
      * split; [done | by eexists].
      * left. split_and!; [by eexists | done | done | eauto].
    + rewrite (execute_code_at_exit_nonzero _ _ _ _ _ _ _ Hrun Hrc).
      eexists; split; [reflexivity|]. split_and!; [by eexists | by eexists | |].
      * split; [by intros [? [=]] | done].
      * right; left. split_and!; [by eexists | done | done | eauto].
  - rewrite (execute_code_at_fault _ _ _ _ _ _ _ Hf).
    eexists; split; [reflexivity|]. split_and!; [by eexists | by eexists | |].
    * split; [by intros [? [=]] | done].
    * right; right. split_and!; [by eexists | done | done | eauto].
Qed.



End Shape.



(** ** [execute_command] *)

Section ExecuteCommand.
Context (h : Host) (WORKING_DIRECTORY : string).
Implicit Types (w : World) (e : Fault) (cp : CompletedProcess).

(** The three things [execute_command] can do, by what the child did. *)
Lemma execute_command_cases command w :
  (execute_command h WORKING_DIRECTORY command w).1
  = match (host_spawn h command WORKING_DIRECTORY (files w)).1 with
    | inl e => Raise (OtherException e)
    | inr cp => if decide (returncode cp = 0%Z) then Return (stdout cp)
                else Return ("Error: " +:+ stderr cp)
    end.
Proof.
  unfold_tools. cbn.
  destruct (host_spawn h command WORKING_DIRECTORY (files w)) as [[e|cp] fs]; cbn;
    [reflexivity|].
  destruct (decide (returncode cp = 0%Z)); reflexivity.
Qed.

(** C5: when the child of an [execute_command] call exits with code 0, the
    call returns the captured stdout and nothing else. *)
Theorem execute_command_exit_zero command w cp fs :
  host_spawn h command WORKING_DIRECTORY (files w) = (inr cp, fs) →
  returncode cp = 0%Z →
  (execute_command h WORKING_DIRECTORY command w).1 = Return (stdout cp).
Proof.
  intros Hs Hrc. rewrite execute_command_cases, Hs. cbn.
  by destruct (decide (returncode cp = 0%Z)).
Qed.

(** C6: when the child exits with a non-zero code, the call returns "Error: "
    followed by the captured stderr; the captured stdout has no part in it,
    so a child that differs in its stdout alone gives the same string. *)
Theorem execute_command_exit_nonzero command w rc out err fs :
  host_spawn h command WORKING_DIRECTORY (files w) = (inr (mkCompleted rc out err), fs) →
  rc ≠ 0%Z →
  (execute_command h WORKING_DIRECTORY command w).1 = Return ("Error: " +:+ err)
  ∧ ∀ h' out' fs',
      host_spawn h' command WORKING_DIRECTORY (files w)
      = (inr (mkCompleted rc out' err), fs') →
      (execute_command h' WORKING_DIRECTORY command w).1
      = (execute_command h WORKING_DIRECTORY command w).1.
Proof.
  intros Hs Hrc. split.
  - rewrite execute_command_cases, Hs. cbn. by destruct (decide (rc = 0%Z)).
  - intros h' out' fs' Hs'. unfold_tools. cbn. rewrite Hs, Hs'. cbn.
    by destruct (decide (rc = 0%Z)).
Qed.

(** A fault that is no [CalledProcessError] is not caught. *)
Lemma execute_command_propagates command w e fs :
  host_spawn h command WORKING_DIRECTORY (files w) = (inl e, fs) →
  (execute_command h WORKING_DIRECTORY command w).1 = Raise (OtherException e).
Proof. intros Hs. by rewrite execute_command_cases, Hs. Qed.

End ExecuteCommand.

(** [echo hello] on the scripted host. *)
Lemma execute_command_exit_zero_witness :
  host_spawn Scripted.host "echo hello" "/data" (files Scripted.world0)
  = (inr (mkCompleted 0 ("hello" +:+ String "010" "") ""), ∅)
  ∧ (execute_command Scripted.host "/data" "echo hello" Scripted.world0).1
    = Return ("hello" +:+ String "010" "").
Proof.
  split; [reflexivity|].
  exact (execute_command_exit_zero Scripted.host "/data" "echo hello" Scripted.world0
           (mkCompleted 0 ("hello" +:+ String "010" "") "") ∅ eq_refl eq_refl).
Defined.

(** [exit 3] on the scripted host. *)
Lemma execute_command_exit_nonzero_witness :
  host_spawn Scripted.host "exit 3" "/data" (files Scripted.world0)
  = (inr (mkCompleted 3 "" ""), ∅)
  ∧ (3 ≠ 0)%Z
  ∧ (execute_command Scripted.host "/data" "exit 3" Scripted.world0).1 = Return "Error: ".
Proof.
  assert (Hrc : (3 ≠ 0)%Z) by lia.
  split; [reflexivity|]. split; [exact Hrc|].
  exact (proj1 (execute_command_exit_nonzero Scripted.host "/data" "exit 3" Scripted.world0
                  3 "" "" ∅ eq_refl Hrc)).
Defined.

(** C2 fails on [execute_command]: a command whose output is not text makes
    [subprocess.run] raise [UnicodeDecodeError], which the handler for
    [CalledProcessError] lets through to the caller. *)
Theorem execute_command_raises_on_binary_output :
  (execute_command Scripted.host "/data" "printf '\377'" Scripted.world0).1
  = Raise (OtherException
             (mkFault "UnicodeDecodeError"
                "'utf-8' codec can't decode byte 0xff in position 0: invalid start byte")).
Proof. reflexivity. Qed.

(** ** The command line of [execute_code] *)

Lemma forallb_string_app f s t :
  Shell.forallb_string f (s +:+ t) = Shell.forallb_string f s && Shell.forallb_string f t.
Proof.
  induction s as [|c s IH]; [reflexivity|].
  change (String c s +:+ t) with (String c (s +:+ t)). cbn. by rewrite IH, andb_assoc.
Qed.

Lemma split_on_no_sep is_sep s :
  Shell.forallb_string (λ c, negb (is_sep c)) s = true → Str.split_on is_sep s = [s].
Proof.
  induction s as [|c s IH]; [reflexivity|]. cbn.
  intros [Hc Hs]%andb_prop. apply negb_true_iff in Hc. by rewrite Hc, (IH Hs).
Qed.

Lemma split_on_at_sep is_sep s c t :
  Shell.forallb_string (λ c, negb (is_sep c)) s = true →
  is_sep c = true →
  Str.split_on is_sep (s +:+ String c t) = s :: Str.split_on is_sep t.
Proof.
  intros Hs Hc. induction s as [|a s IH].
  - change ("" +:+ String c t) with (String c t). cbn. by rewrite Hc.
  - change (String a s +:+ String c t) with (String a (s +:+ String c t)).
    cbn in Hs |- *. apply andb_prop in Hs as [Ha Hs]. apply negb_true_iff in Ha.
    by rewrite Ha, (IH Hs).
Qed.

(** For a path with no blank and nothing special in it the shell does start
    [python] with the path as its one argument. *)
Lemma python_argv_of_plain_path p :
  p ≠ "" →
  Shell.plain p = true →
  Shell.forallb_string (λ c, negb (Shell.is_blank c)) p = true →
  Shell.argv ("python " +:+ p) = Some ["python"; p].
Proof.
  intros Hne Hplain Hblank. unfold Shell.argv, Shell.plain in *.
  rewrite forallb_string_app, Hplain.
  replace (Shell.forallb_string (λ c, negb (Shell.is_special c)) "python ") with true
    by (vm_compute; reflexivity).
  cbn. unfold Shell.words.
  change ("python " +:+ p) with ("python" +:+ String " " p).
  rewrite split_on_at_sep by (vm_compute; reflexivity).
  rewrite (split_on_no_sep _ _ Hblank).
  rewrite (filter_cons_True _ "python") by done.
  rewrite (filter_cons_True _ p) by done. done.
Qed.

(** C8 fails for a file name with a space in it: the file is written to
    [/data/my code.py], the command line is [python /data/my code.py], not
    quoted, the shell makes two arguments of the path and [python] is sent
    to [/data/my], so the code just written is not run. *)
Theorem execute_code_splits_path_at_space :
  let call := execute_code Scripted.host "/data" "print(1+1)" "my code.py" Scripted.world0 in
  launched call.2 = [("python /data/my code.py", "/data")]
  ∧ Shell.argv "python /data/my code.py" = Some ["python"; "/data/my"; "code.py"]
  ∧ files call.2 !! "/data/my code.py" = Some "print(1+1)"
  ∧ call.1 = Return (<["file_path" := "/data/my code.py"]>
                     (<["error" := "python: can't open file '/data/my': [Errno 2] No such file or directory"
                                   +:+ String "010" ""]>
                      (<["result" := "Failed to execute"]> ∅))).
Proof. cbv zeta. split_and!; vm_compute; reflexivity. Qed.

(** * Further properties *)

(** ** What [execute_code] does to the world *)

Section CodeEffects.
Context {P : OsPath} (h : Host) (WORKING_DIRECTORY : string).
Implicit Types (w : World) (e : Fault) (cp : CompletedProcess).

Local Abbreviation p_of name := (resolved_path WORKING_DIRECTORY name).

(** The world after a call, by what the host did. *)
Lemma execute_code_world input_code codefile_name w :
  let p := p_of codefile_name in
  let w' := (execute_code h WORKING_DIRECTORY input_code codefile_name w).2 in
  match host_makedirs h WORKING_DIRECTORY, host_open_w h p, host_write h p input_code with
  | None, None, None =>
      launched w' = launched w ++ [("python " +:+ p, WORKING_DIRECTORY)]
      ∧ files w' = (host_spawn h ("python " +:+ p) WORKING_DIRECTORY
                      (<[p := input_code]> (files w))).2
  | None, None, Some (_, part) =>
      launched w' = launched w ∧ files w' = <[p := part]> (files w)
  | _, _, _ => launched w' = launched w ∧ files w' = files w
  end.
Proof.
  cbv zeta.
  destruct (host_makedirs h WORKING_DIRECTORY) as [e1|] eqn:H1.
  { by rewrite (execute_code_at_makedirs _ _ _ _ _ _ H1). }
  destruct (host_open_w h (p_of codefile_name)) as [e2|] eqn:H2.
  { by rewrite (execute_code_at_open _ _ _ _ _ _ H1 H2). }
  destruct (host_write h (p_of codefile_name) input_code) as [[e3 part]|] eqn:H3.
  { by rewrite (execute_code_at_write _ _ _ _ _ _ _ H1 H2 H3). }
  destruct (host_spawn h ("python " +:+ p_of codefile_name) WORKING_DIRECTORY
              (<[p_of codefile_name := input_code]> (files w))) as [[e4|cp] fs] eqn:H4.
  { by rewrite (execute_code_at_launch _ _ _ _ _ _ _ H1 H2 H3 H4). }
  assert (Hrun : runs_to_exit h WORKING_DIRECTORY input_code codefile_name w cp fs)
    by done.
  destruct (decide (returncode cp = 0%Z)) as [Hrc|Hrc].
  - by rewrite (execute_code_at_exit_zero _ _ _ _ _ _ _ Hrun Hrc).
  - by rewrite (execute_code_at_exit_nonzero _ _ _ _ _ _ _ Hrun Hrc).
Qed.


(** X2: the files after a call.  A fault of [os.makedirs] or [open] leaves
    every file as it was; a fault while writing leaves at the resolved path
    what reached the disk, the earlier content being gone, and nothing else
    changed; otherwise the files are those the child left, the child having
    been given the code file with exactly [input_code] in it. *)
Theorem execute_code_files input_code codefile_name w :
  files (execute_code h WORKING_DIRECTORY input_code codefile_name w).2
  = match host_makedirs h WORKING_DIRECTORY,
          host_open_w h (p_of codefile_name),
          host_write h (p_of codefile_name) input_code with
    | None, None, None =>
        (host_spawn h ("python " +:+ p_of codefile_name) WORKING_DIRECTORY
           (<[p_of codefile_name := input_code]> (files w))).2
    | None, None, Some (_, part) => <[p_of codefile_name := part]> (files w)
    | _, _, _ => files w
    end.
Proof.
  pose proof (execute_code_world input_code codefile_name w) as Hw. cbv zeta in Hw.
  destruct (host_makedirs h WORKING_DIRECTORY); [apply Hw|].
  destruct (host_open_w h (p_of codefile_name)); [apply Hw|].
  destruct (host_write h (p_of codefile_name) input_code) as [[e part]|]; apply Hw.
Qed.

(** X3: a call that starts no process changes no file but the one at the
    resolved path. *)
Theorem execute_code_without_launch_keeps_other_files input_code codefile_name w q :
  launched (execute_code h WORKING_DIRECTORY input_code codefile_name w).2 = launched w →
  q ≠ p_of codefile_name →
  files (execute_code h WORKING_DIRECTORY input_code codefile_name w).2 !! q = files w !! q.
Proof.
  intros Hl Hq.
  pose proof (execute_code_world input_code codefile_name w) as Hw. cbv zeta in Hw.
  destruct (host_makedirs h WORKING_DIRECTORY); [by rewrite (proj2 Hw)|].
  destruct (host_open_w h (p_of codefile_name)); [by rewrite (proj2 Hw)|].
  destruct (host_write h (p_of codefile_name) input_code) as [[e part]|].
  - rewrite (proj2 Hw). by rewrite lookup_insert_ne.
  - destruct Hw as [Hw _]. rewrite Hw in Hl.
    apply (f_equal length) in Hl. rewrite length_app in Hl. cbn in Hl. lia.
Qed.

(** X4: when the file is written and the child leaves it alone, the file at
    the resolved path holds exactly [input_code] after the call, whatever it
    held before: the code is written over the file, not added to it. *)
Theorem execute_code_leaves_code_on_disk input_code codefile_name w :
  host_makedirs h WORKING_DIRECTORY = None →
  host_open_w h (p_of codefile_name) = None →
  host_write h (p_of codefile_name) input_code = None →
  (∀ fs : gmap string string,
     (host_spawn h ("python " +:+ p_of codefile_name) WORKING_DIRECTORY fs).2
       !! p_of codefile_name = fs !! p_of codefile_name) →
  files (execute_code h WORKING_DIRECTORY input_code codefile_name w).2
    !! p_of codefile_name = Some input_code.
Proof.
  intros H1 H2 H3 Hchild.
  pose proof (execute_code_world input_code codefile_name w) as Hw. cbv zeta in Hw.
  rewrite H1, H2, H3 in Hw. destruct Hw as [_ ->].
  by rewrite Hchild, lookup_insert_eq.
Qed.

End CodeEffects.

(** A call on the host that cannot make its directory, and another file. *)
Lemma execute_code_without_launch_keeps_other_files_witness :
  launched (execute_code Scripted.host_no_dir "/data" "print(1+1)" "code.py"
              (mkWorld {["/data/notes.txt" := "keep"]} [] [])).2 = []
  ∧ files (execute_code Scripted.host_no_dir "/data" "print(1+1)" "code.py"
             (mkWorld {["/data/notes.txt" := "keep"]} [] [])).2 !! "/data/notes.txt"
    = Some "keep".
Proof.
  split; [reflexivity|].
  rewrite (execute_code_without_launch_keeps_other_files Scripted.host_no_dir "/data"
             "print(1+1)" "code.py" (mkWorld {["/data/notes.txt" := "keep"]} [] [])
             "/data/notes.txt" eq_refl); [reflexivity|].
  vm_compute. discriminate.
Defined.

(** Two snippets, one after the other, in the same file of the scripted
    host: the second is what stays. *)
Lemma execute_code_leaves_code_on_disk_witness :
  files (execute_code Scripted.host "/data" "raise ValueError('x')" "code.py"
           (execute_code Scripted.host "/data" "print(1+1)" "code.py" Scripted.world0).2).2
    !! "/data/code.py" = Some "raise ValueError('x')".
Proof.
  exact (execute_code_leaves_code_on_disk Scripted.host "/data" "raise ValueError('x')"
           "code.py"
           (execute_code Scripted.host "/data" "print(1+1)" "code.py" Scripted.world0).2
           eq_refl eq_refl eq_refl (λ fs, eq_refl)).
Defined.

(** ** The log and the dict of [execute_code] *)

Section CodeLog.
Context {P : OsPath} (h : Host) (WORKING_DIRECTORY : string).
Implicit Types (w : World) (e : Fault) (cp : CompletedProcess).

Local Abbreviation p_of name := (resolved_path WORKING_DIRECTORY name).

(** X5: [execute_code] only adds to the log.  What it adds is a run of
    INFO records and then one last record: (INFO, "Code executed
    successfully") when the dict has ["output"], and an ERROR record, the
    only one, when the dict has ["error"]. *)
Theorem execute_code_log input_code codefile_name w :
  ∃ d w' infos final,
    execute_code h WORKING_DIRECTORY input_code codefile_name w = (Return d, w')
    ∧ log w' = log w ++ infos ++ [final]
    ∧ Forall (λ r, r.1 = INFO) infos
    ∧ (is_Some (d !! "output") → final = (INFO, "Code executed successfully"))
    ∧ (is_Some (d !! "error") → final.1 = ERROR).
Proof.
  destruct (exit_or_fault h WORKING_DIRECTORY input_code codefile_name w)
    as [(cp & fs & Hrun) | (pt & e & Hf)].
  - destruct (decide (returncode cp = 0%Z)) as [Hrc|Hrc].
    + rewrite (execute_code_at_exit_zero _ _ _ _ _ _ _ Hrun Hrc).
      do 2 eexists. eexists [_; _; _], _. split; [reflexivity|]. cbn.
      split; [by rewrite <- !app_assoc|].
      split; [by repeat constructor|]. split; [done | by intros [? [=]]].
    + rewrite (execute_code_at_exit_nonzero _ _ _ _ _ _ _ Hrun Hrc).
      do 2 eexists. eexists [_; _; _], _. split; [reflexivity|]. cbn.
      split; [by rewrite <- !app_assoc|].
      split; [by repeat constructor|]. split; [by intros [? [=]] | done].
  - destruct pt; cbn in Hf.
    + rewrite (execute_code_at_makedirs _ _ _ _ _ _ Hf).
      do 2 eexists. eexists [], _. split; [reflexivity|]. cbn.
      split; [done|]. split; [constructor|]. split; [by intros [? [=]] | done].
    + destruct Hf as [H1 H2]. rewrite (execute_code_at_open _ _ _ _ _ _ H1 H2).
      do 2 eexists. eexists [_], _. split; [reflexivity|]. cbn.
      split; [by rewrite <- !app_assoc|].
      split; [by repeat constructor|]. split; [by intros [? [=]] | done].
    + destruct Hf as (H1 & H2 & part & H3).
      rewrite (execute_code_at_write _ _ _ _ _ _ _ H1 H2 H3).
      do 2 eexists. eexists [_], _. split; [reflexivity|]. cbn.
      split; [by rewrite <- !app_assoc|].
      split; [by repeat constructor|]. split; [by intros [? [=]] | done].
    + destruct Hf as (H1 & H2 & H3 & H4).
      destruct (host_spawn h _ _ _) as [r fs] eqn:Hs. cbn in H4. subst r.
      rewrite (execute_code_at_launch _ _ _ _ _ _ _ H1 H2 H3 Hs).
      do 2 eexists. eexists [_; _; _], _. split; [reflexivity|]. cbn.
      split; [by rewrite <- !app_assoc|].
      split; [by repeat constructor|]. split; [by intros [? [=]] | done].
Qed.

(** X6: the dict has three keys and no more: ["result"], ["file_path"] and
    one of ["output"] and ["error"]. *)
Theorem execute_code_dict_domain input_code codefile_name w :
  ∃ d, (execute_code h WORKING_DIRECTORY input_code codefile_name w).1 = Return d
     ∧ size d = 3
     ∧ (dom d = {[ "result"; "output"; "file_path" ]}
        ∨ dom d = {[ "result"; "error"; "file_path" ]}).
Proof.
  destruct (exit_or_fault h WORKING_DIRECTORY input_code codefile_name w)
    as [(cp & fs & Hrun) | (pt & e & Hf)].
  - destruct (decide (returncode cp = 0%Z)) as [Hrc|Hrc].
    + rewrite (execute_code_at_exit_zero _ _ _ _ _ _ _ Hrun Hrc).
      eexists; split; [reflexivity|]. split.
      * rewrite !map_size_insert_None by done. by rewrite map_size_empty.
      * left. rewrite !dom_insert_L, dom_empty_L. set_solver.
    + rewrite (execute_code_at_exit_nonzero _ _ _ _ _ _ _ Hrun Hrc).
      eexists; split; [reflexivity|]. split.
      * rewrite !map_size_insert_None by done. by rewrite map_size_empty.
      * right. rewrite !dom_insert_L, dom_empty_L. set_solver.
  - rewrite (execute_code_at_fault _ _ _ _ _ _ _ Hf).
    eexists; split; [reflexivity|]. split.
    * rewrite !map_size_insert_None by done. by rewrite map_size_empty.
    * right. rewrite !dom_insert_L, dom_empty_L. set_solver.
Qed.

End CodeLog.

(** X7: of the two streams of the child the dict keeps one.  When the
    child exits with 0 its stderr is dropped, and when it exits with another
    code its stdout is: two children with the same exit code that agree on
    the stream that is kept give the same dict. *)
Theorem execute_code_keeps_one_stream `{P : OsPath} (h h' : Host) (WORKING_DIRECTORY : string)
    input_code codefile_name (w w' : World) rc out err out' err' fs fs' :
  runs_to_exit h WORKING_DIRECTORY input_code codefile_name w (mkCompleted rc out err) fs →
  runs_to_exit h' WORKING_DIRECTORY input_code codefile_name w'
    (mkCompleted rc out' err') fs' →
  (if decide (rc = 0%Z) then out = out' else err = err') →
  (execute_code h WORKING_DIRECTORY input_code codefile_name w).1
  = (execute_code h' WORKING_DIRECTORY input_code codefile_name w').1.
Proof.
  intros Hrun Hrun' Hsame. destruct (decide (rc = 0%Z)) as [Hrc|Hrc]; subst.
  - rewrite (execute_code_at_exit_zero _ _ _ _ _ _ _ Hrun eq_refl).
    by rewrite (execute_code_at_exit_zero _ _ _ _ _ _ _ Hrun' eq_refl).
  - rewrite (execute_code_at_exit_nonzero _ _ _ _ _ _ _ Hrun Hrc).
    by rewrite (execute_code_at_exit_nonzero _ _ _ _ _ _ _ Hrun' Hrc).
Qed.

(** The scripted [python] and one that also warns on stderr. *)
Lemma execute_code_keeps_one_stream_witness :
  (execute_code Scripted.host "/data" "print(1+1)" "code.py" Scripted.world0).1
  = (execute_code
       (mkHost (λ _, None) (λ _, None) (λ _ _, None)
          (λ _ _ fs, (inr (mkCompleted 0 (String "2" (String "010" ""))
                             "DeprecationWarning"), fs)))
       "/data" "print(1+1)" "code.py" Scripted.world0).1.
Proof.
  apply (execute_code_keeps_one_stream _ _ "/data" "print(1+1)" "code.py"
           Scripted.world0 Scripted.world0 0 (String "2" (String "010" "")) ""
           (String "2" (String "010" "")) "DeprecationWarning"
           (<["/data/code.py" := "print(1+1)"]> ∅)
           (<["/data/code.py" := "print(1+1)"]> ∅)).
  - repeat split; vm_compute; reflexivity.
  - repeat split; vm_compute; reflexivity.
  - reflexivity.
Defined.

(** ** What [execute_command] does *)

Section CommandEffects.
Context (h : Host) (WORKING_DIRECTORY : string).
Implicit Types (w : World) (e : Fault) (cp : CompletedProcess).

(** X8: when [subprocess.run] comes back with an exit status, zero or not,
    what was started is the command string itself, unchanged, once, in
    [WORKING_DIRECTORY]; and [execute_command] touches no file itself, so the
    files after the call are those the child left. *)
Theorem execute_command_runs_command_as_given command w cp fs :
  host_spawn h command WORKING_DIRECTORY (files w) = (inr cp, fs) →
  launched (execute_command h WORKING_DIRECTORY command w).2
  = launched w ++ [(command, WORKING_DIRECTORY)]
  ∧ files (execute_command h WORKING_DIRECTORY command w).2 = fs.
Proof.
  intros Hs. unfold_tools. cbn. rewrite Hs. cbn.
  destruct (decide (returncode cp = 0%Z)); done.
Qed.

(** X9: the log of [execute_command].  It first logs the command; then
    "Command executed successfully" when the child exits with 0, an ERROR
    record with the captured stderr when it exits with another code, and
    nothing more when the launch faults. *)
Theorem execute_command_log command w :
  log (execute_command h WORKING_DIRECTORY command w).2
  = log w ++ (INFO, "Executing command: " +:+ command)
      :: match (host_spawn h command WORKING_DIRECTORY (files w)).1 with
         | inl _ => []
         | inr cp =>
             if decide (returncode cp = 0%Z)
             then [(INFO, "Command executed successfully")]
             else [(ERROR, "Error executing command: " +:+ stderr cp)]
         end.
Proof.
  unfold_tools. cbn.
  destruct (host_spawn h command WORKING_DIRECTORY (files w)) as [[e|cp] fs]; cbn;
    [done|].
  destruct (decide (returncode cp = 0%Z)); cbn; by rewrite <- app_assoc.
Qed.

(** X10: what [execute_command] lets out, by what [subprocess.run] did.
    When [subprocess.run] captured an exit status and both streams,
    [execute_command] returns a string: the stdout for status 0, "Error: "
    and the stderr for any other.  When [subprocess.run] raised another
    fault (the launch failed, or the output was no text), that fault leaves
    [execute_command] as it is.  A [CalledProcessError] never leaves it. *)
Theorem execute_command_outcome command w :
  match (execute_command h WORKING_DIRECTORY command w).1 with
  | Return s =>
      ∃ cp, (host_spawn h command WORKING_DIRECTORY (files w)).1 = inr cp
          ∧ s = if decide (returncode cp = 0%Z) then stdout cp
                else "Error: " +:+ stderr cp
  | Raise (OtherException e) =>
      (host_spawn h command WORKING_DIRECTORY (files w)).1 = inl e
  | Raise (CalledProcessError _ _ _ _) => False
  end.
Proof.
  rewrite execute_command_cases.
  destruct (host_spawn h command WORKING_DIRECTORY (files w)) as [[e|cp] fs]; cbn;
    [done|].
  destruct (decide (returncode cp = 0%Z)) as [Hrc|Hrc]; exists cp;
    (split; [done|]); by destruct (decide (returncode cp = 0%Z)).
Qed.

(** X11: the string that [execute_command] returns does not tell failure
    from success: a command that exits with 0 and prints "Error: " and some
    text gives the very string of a command that fails with that text on
    stderr. *)
Theorem execute_command_error_prefix_is_ambiguous
    (h' : Host) command command' w w' err rc out' fs fs' :
  host_spawn h command WORKING_DIRECTORY (files w)
  = (inr (mkCompleted 0 ("Error: " +:+ err) ""), fs) →
  host_spawn h' command' WORKING_DIRECTORY (files w')
  = (inr (mkCompleted rc out' err), fs') →
  rc ≠ 0%Z →
  (execute_command h WORKING_DIRECTORY command w).1
  = (execute_command h' WORKING_DIRECTORY command' w').1.
Proof.
  intros Hs Hs' Hrc. rewrite !execute_command_cases, Hs, Hs'. cbn.
  by destruct (decide (rc = 0%Z)).
Qed.

End CommandEffects.

(** [exit 3] on the scripted host. *)
Lemma execute_command_runs_command_as_given_witness :
  host_spawn Scripted.host "exit 3" "/data" (files Scripted.world0)
  = (inr (mkCompleted 3 "" ""), ∅)
  ∧ launched (execute_command Scripted.host "/data" "exit 3" Scripted.world0).2
    = [("exit 3", "/data")].
Proof.
  split; [reflexivity|].
  exact (proj1 (execute_command_runs_command_as_given Scripted.host "/data" "exit 3"
                  Scripted.world0 (mkCompleted 3 "" "") ∅ eq_refl)).
Defined.

(** A command that prints "Error: " and nothing else, and [exit 3]. *)
Lemma execute_command_error_prefix_is_ambiguous_witness :
  (execute_command
     (mkHost (λ _, None) (λ _, None) (λ _ _, None)
        (λ _ _ fs, (inr (mkCompleted 0 "Error: " ""), fs)))
     "/data" "printf 'Error: '" Scripted.world0).1
  = (execute_command Scripted.host "/data" "exit 3" Scripted.world0).1.
Proof.
  assert (Hrc : (3 ≠ 0)%Z) by lia.
  exact (execute_command_error_prefix_is_ambiguous
           (mkHost (λ _, None) (λ _, None) (λ _ _, None)
              (λ _ _ fs, (inr (mkCompleted 0 "Error: " ""), fs)))
           "/data" Scripted.host
           "printf 'Error: '" "exit 3" Scripted.world0 Scripted.world0 "" 3 "" ∅ ∅
           eq_refl eq_refl Hrc).
Defined.

(** ** Import time *)

(** X12: importing the module.  There is no handler at module level: when
    the directory is missing and [os.makedirs] faults, the import raises
    that fault and the world, log included, is as before.  Otherwise the
    import returns, touches no file, starts no process, and logs "Module
    initialized successfully" last, after "Created storage directory: ..."
    exactly when the directory was missing. *)
Theorem module_init_outcome (ih : ImportHost) (WORKING_DIRECTORY : string) (w : World) :
  match module_init ih WORKING_DIRECTORY w with
  | (Raise e, w') =>
      import_exists ih WORKING_DIRECTORY = false
      ∧ import_makedirs ih WORKING_DIRECTORY = Some e
      ∧ w' = w
  | (Return _, w') =>
      files w' = files w
      ∧ launched w' = launched w
      ∧ log w' = log w
                 ++ (if import_exists ih WORKING_DIRECTORY then []
                     else [(INFO, "Created storage directory: " +:+ WORKING_DIRECTORY)])
                 ++ [(INFO, "Module initialized successfully")]
      ∧ (import_exists ih WORKING_DIRECTORY = false →
         import_makedirs ih WORKING_DIRECTORY = None)
  end.
Proof.
  unfold module_init. unfold_tools. cbn.
  destruct (import_exists ih WORKING_DIRECTORY); cbn; [done|].
  destruct (import_makedirs ih WORKING_DIRECTORY) as [e|]; cbn; [by destruct w|].
  by rewrite <- app_assoc.
Qed.

(** ** The shell and the path *)

Lemma split_on_pieces is_sep s :
  Forall (λ piece, Shell.forallb_string (λ c, negb (is_sep c)) piece = true)
         (Str.split_on is_sep s).
Proof.
  induction s as [|c s IH]; cbn; [by repeat constructor|].
  destruct (is_sep c) eqn:Hc; [by constructor|].
  destruct (Str.split_on is_sep s) as [|piece rest].
  - repeat constructor. cbn. by rewrite Hc.
  - inversion IH as [|? ? Hpiece Hrest]; subst. constructor; [|done].
    cbn. by rewrite Hc, Hpiece.
Qed.

(** A word of the shell has no blank in it. *)
Lemma words_have_no_blank s word :
  word ∈ Shell.words s →
  Shell.forallb_string (λ c, negb (Shell.is_blank c)) word = true.
Proof.
  unfold Shell.words. intros [_ Hin]%list_elem_of_filter.
  pose proof (split_on_pieces Shell.is_blank s) as Hall.
  rewrite Forall_forall in Hall. by apply Hall.
Qed.

Section CodeCommandLine.
Context {P : OsPath} (h : Host) (WORKING_DIRECTORY : string).
Implicit Types (w : World).

Local Abbreviation p_of name := (resolved_path WORKING_DIRECTORY name).

(** X13: when the resolved path is not empty and has no blank and no
    character that is special to the shell, the command line that
    [execute_code] launches does start [python] with the resolved path as
    its one argument. *)
Theorem execute_code_plain_path_is_sole_argument input_code codefile_name w :
  host_makedirs h WORKING_DIRECTORY = None →
  host_open_w h (p_of codefile_name) = None →
  host_write h (p_of codefile_name) input_code = None →
  p_of codefile_name ≠ "" →
  Shell.plain (p_of codefile_name) = true →
  Shell.forallb_string (λ c, negb (Shell.is_blank c)) (p_of codefile_name) = true →
  ∃ command,
    launched (execute_code h WORKING_DIRECTORY input_code codefile_name w).2
    = launched w ++ [(command, WORKING_DIRECTORY)]
    ∧ Shell.argv command = Some ["python"; p_of codefile_name].
Proof.
  intros H1 H2 H3 Hne Hplain Hblank.
  pose proof (execute_code_world h WORKING_DIRECTORY input_code codefile_name w) as Hw.
  cbv zeta in Hw. rewrite H1, H2, H3 in Hw. destruct Hw as [Hl _].
  eexists. split; [exact Hl|]. by apply python_argv_of_plain_path.
Qed.

(** X14: when the resolved path has a blank in it and nothing that is
    special to the shell, the shell splits the command line that
    [execute_code] launches at the blank, and the resolved path is not
    among the arguments that [python] gets. *)
Theorem execute_code_path_with_blank_is_split input_code codefile_name w :
  host_makedirs h WORKING_DIRECTORY = None →
  host_open_w h (p_of codefile_name) = None →
  host_write h (p_of codefile_name) input_code = None →
  Shell.plain (p_of codefile_name) = true →
  Shell.forallb_string (λ c, negb (Shell.is_blank c)) (p_of codefile_name) = false →
  ∃ command args,
    launched (execute_code h WORKING_DIRECTORY input_code codefile_name w).2
    = launched w ++ [(command, WORKING_DIRECTORY)]
    ∧ Shell.argv command = Some args
    ∧ p_of codefile_name ∉ args.
Proof.
  intros H1 H2 H3 Hplain Hblank.
  pose proof (execute_code_world h WORKING_DIRECTORY input_code codefile_name w) as Hw.
  cbv zeta in Hw. rewrite H1, H2, H3 in Hw. destruct Hw as [Hl _].
  eexists _, _. split; [exact Hl|]. split.
  - unfold Shell.argv, Shell.plain in *. rewrite forallb_string_app, Hplain.
    replace (Shell.forallb_string (λ c, negb (Shell.is_special c)) "python ") with true
      by (vm_compute; reflexivity).
    reflexivity.
  - intros Hin. apply words_have_no_blank in Hin. congruence.
Qed.

End CodeCommandLine.

(** The default file name under [/data]. *)
Lemma execute_code_plain_path_is_sole_argument_witness :
  ∃ command,
    launched (execute_code Scripted.host "/data" "print(1+1)" "code.py" Scripted.world0).2
    = [(command, "/data")]
    ∧ Shell.argv command = Some ["python"; "/data/code.py"].
Proof.
  assert (Hne : resolved_path "/data" "code.py" ≠ "") by (vm_compute; discriminate).
  exact (execute_code_plain_path_is_sole_argument Scripted.host "/data" "print(1+1)"
           "code.py" Scripted.world0 eq_refl eq_refl eq_refl Hne eq_refl eq_refl).
Defined.

(** A file name with a space under [/data]. *)
Lemma execute_code_path_with_blank_is_split_witness :
  ∃ command args,
    launched (execute_code Scripted.host "/data" "print(1+1)" "my code.py"
                Scripted.world0).2
    = [(command, "/data")]
    ∧ Shell.argv command = Some args
    ∧ "/data/my code.py" ∉ args.
Proof.
  exact (execute_code_path_with_blank_is_split Scripted.host "/data" "print(1+1)"
           "my code.py" Scripted.world0 eq_refl eq_refl eq_refl eq_refl eq_refl).
Defined.

(** ** POSIX paths *)

Lemma eqb_true a b : Str.eqb a b = true ↔ a = b.
Proof. unfold Str.eqb. by rewrite bool_decide_eq_true. Qed.

Lemma eqb_false a b : Str.eqb a b = false ↔ a ≠ b.
Proof. unfold Str.eqb. by rewrite bool_decide_eq_false. Qed.

Lemma norm_step_skip k comps comp :
  comp = "" ∨ comp = "." → PosixPath.norm_step k comps comp = comps.
Proof.
  intros [-> | ->]; reflexivity.
Qed.

Lemma norm_step_name k comps comp :
  comp ≠ "" → comp ≠ "." → comp ≠ ".." →
  PosixPath.norm_step k comps comp = comps ++ [comp].
Proof.
  intros H1 H2 H3. unfold PosixPath.norm_step.
  apply eqb_false in H1, H2, H3. by rewrite H1, H2, H3.
Qed.

Lemma norm_step_dotdot k comps :
  PosixPath.norm_step k comps ".."
  = if bool_decide (k = 0) && bool_decide (comps = [])
       || negb (bool_decide (comps = [])) && bool_decide (last comps = Some "..")
    then comps ++ [".."] else removelast comps.
Proof. reflexivity. Qed.

(** One round of the loop keeps the components normal. *)
Lemma normal_comps_step k comps comp :
  normal_comps k comps → no_sep comp = true →
  normal_comps k (PosixPath.norm_step k comps comp).
Proof.
  intros (Hnames & n & rest & -> & Hrest & Hk) Hsep.
  assert (Hold : normal_comps k (replicate n ".." ++ rest)) by (split; eauto).
  destruct (decide (comp = "")) as [->|H1]; [by rewrite norm_step_skip by eauto|].
  destruct (decide (comp = ".")) as [->|H2]; [by rewrite norm_step_skip by eauto|].
  destruct (decide (comp = "..")) as [->|H3].
  - rewrite norm_step_dotdot.
    destruct rest as [|r rest _] using rev_ind.
    + rewrite app_nil_r in *. destruct n as [|n].
      * cbn. destruct (bool_decide (k = 0)) eqn:Hk0; cbn.
        -- apply bool_decide_eq_true in Hk0. split; [by repeat constructor|].
           exists 1, []. by split_and!.
        -- split; [done|]. exists 0, []. by split_and!.
      * assert (k = 0) as -> by (destruct k; [done|]; by specialize (Hk ltac:(done))).
        assert (Hlast : last (replicate (S n) "..") = Some "..")
          by (by rewrite replicate_S_end, last_snoc).
        rewrite Hlast.
        rewrite (bool_decide_eq_false_2 (replicate (S n) ".." = [])) by done.
        cbn [negb andb orb bool_decide]. rewrite bool_decide_eq_true_2 by done.
        rewrite orb_true_r. split.
        -- apply Forall_app; split; [done | by repeat constructor].
        -- exists (S (S n)), []. rewrite app_nil_r. split_and!; [|done|done].
           by rewrite (replicate_S_end (S n)).
    + apply Forall_app in Hrest as [Hrest Hr]. inversion Hr as [|? ? Hr' _]; subst.
      rewrite app_assoc, last_snoc.
      rewrite (bool_decide_eq_false_2 (_ ++ [r] = [])) by (by destruct (replicate n ".." ++ rest)).
      rewrite (bool_decide_eq_false_2 (Some r = Some "..")) by congruence.
      rewrite andb_false_r. cbn. rewrite removelast_last.
      split.
      * rewrite app_assoc in Hnames. by apply Forall_app in Hnames as [? _].
      * by exists n, rest.
  - rewrite norm_step_name by done. split.
    + apply Forall_app; split; [done|]. by repeat constructor.
    + exists n, (rest ++ [comp]). rewrite app_assoc. split_and!; [done| |done].
      apply Forall_app; split; [done | by repeat constructor].
Qed.

Lemma normal_comps_nil k : normal_comps k [].
Proof. split; [constructor|]. exists 0, []. by split_and!. Qed.

Lemma normal_comps_fold k pieces acc :
  normal_comps k acc →
  Forall (λ c, no_sep c = true) pieces →
  normal_comps k (fold_left (PosixPath.norm_step k) pieces acc).
Proof.
  intros Hacc Hpieces. revert acc Hacc.
  induction Hpieces as [|c pieces Hc _ IH]; intros acc Hacc; [done|].
  cbn. apply IH. by apply normal_comps_step.
Qed.

Lemma replicate_prefix {A} (x : A) n (l1 l2 rest : list A) :
  l1 ++ x :: l2 = replicate n x ++ rest →
  Forall (λ c, c ≠ x) rest →
  l1 = replicate (length l1) x ∧ length l1 < n.
Proof.
  revert l1. induction n as [|n IH]; intros l1 Heq Hrest.
  - cbn in Heq. subst rest. apply Forall_app in Hrest as [_ Hx].
    by inversion Hx.
  - destruct l1 as [|a l1]; cbn in *; [split; [done | lia]|].
    injection Heq as -> Heq. destruct (IH _ Heq Hrest) as [Hl Hlt].
    split; [by rewrite <- Hl | lia].
Qed.

(** The loop leaves normal components as they are. *)
Lemma norm_fold_normal k comps acc :
  normal_comps k (acc ++ comps) →
  fold_left (PosixPath.norm_step k) comps acc = acc ++ comps.
Proof.
  revert acc. induction comps as [|c comps IH]; intros acc Hn;
    [by rewrite app_nil_r|].
  cbn. assert (Hstep : PosixPath.norm_step k acc c = acc ++ [c]).
  { destruct Hn as (Hnames & n & rest & Heq & Hrest & Hk).
    apply Forall_app in Hnames as [_ Hc]. inversion Hc as [|? ? (H1 & H2 & _) _]; subst.
    destruct (decide (c = "..")) as [->|H3]; [|by apply norm_step_name].
    destruct (replicate_prefix _ _ _ _ _ Heq Hrest) as [Hacc Hlt].
    assert (k = 0) as -> by (destruct k; [done|]; specialize (Hk ltac:(done)); lia).
    rewrite norm_step_dotdot. destruct (length acc) as [|m] eqn:Hlen.
    - apply nil_length_inv in Hlen as ->. reflexivity.
    - assert (Hlast : last acc = Some "..")
        by (by rewrite Hacc, replicate_S_end, last_snoc).
      rewrite Hlast, (bool_decide_eq_false_2 (acc = [])) by (by rewrite Hacc).
      cbn. by rewrite bool_decide_eq_true_2. }
  rewrite Hstep, IH; rewrite <- app_assoc; done.
Qed.

Lemma app_cons_string c s t : String c s +:+ t = String c (s +:+ t).
Proof. reflexivity. Qed.

Lemma split_join comps :
  comps ≠ [] → Forall (λ c, no_sep c = true) comps →
  Str.split_on PosixPath.is_sep (Str.join_with "/" comps) = comps.
Proof.
  intros Hne Hall. induction Hall as [|w ws Hw Hws IH]; [done|].
  destruct ws as [|w' ws].
  - cbn. by apply split_on_no_sep.
  - change (Str.join_with "/" (w :: w' :: ws))
      with (w +:+ String "/" (Str.join_with "/" (w' :: ws))).
    rewrite split_on_at_sep by done. by rewrite IH.
Qed.

Lemma join_not_absolute comps :
  Forall is_name comps → Str.startswith "/" (Str.join_with "/" comps) = false.
Proof.
  intros Hall. destruct Hall as [|w ws (Hne & _ & Hsep) _]; [reflexivity|].
  destruct w as [|a w]; [done|].
  assert (Ha : a ≠ "/"%char).
  { cbn in Hsep. apply andb_prop in Hsep as [Ha _].
    apply negb_true_iff, bool_decide_eq_false in Ha. done. }
  destruct ws as [|w' ws]; cbn.
  - destruct (decide _); [congruence | done].
  - rewrite app_cons_string. cbn. destruct (decide _); [congruence | done].
Qed.

Lemma join_is_empty comps :
  Forall is_name comps → comps ≠ [] → Str.is_empty (Str.join_with "/" comps) = false.
Proof.
  intros Hall Hne. destruct Hall as [|w ws (Hw & _) _]; [done|].
  destruct w as [|a w]; [done|]. destruct ws; cbn; [done|].
  by rewrite app_cons_string.
Qed.

Lemma normpath_assemble path :
  PosixPath.normpath path
  = if Str.is_empty path then "."
    else assemble (PosixPath.initial_slashes path)
           (fold_left (PosixPath.norm_step (PosixPath.initial_slashes path))
              (Str.split_on PosixPath.is_sep path) []).
Proof. reflexivity. Qed.

Lemma initial_slashes_le path : PosixPath.initial_slashes path ≤ 2.
Proof.
  unfold PosixPath.initial_slashes.
  destruct (Str.startswith "/" path); [|lia]. destruct (_ && _); lia.
Qed.

Lemma fold_names k comps :
  normal_comps k comps →
  fold_left (PosixPath.norm_step k)
    (Str.split_on PosixPath.is_sep (Str.join_with "/" comps)) [] = comps.
Proof.
  intros Hn. destruct comps as [|c comps]; [reflexivity|].
  rewrite split_join; [by apply norm_fold_normal | done |].
  destruct Hn as [Hnames _]. eapply Forall_impl; [exact Hnames|]. by intros ? (_ & _ & ?).
Qed.

(** A path put together from normal components is its own normal form. *)
Lemma normpath_of_assemble k comps :
  k ≤ 2 → normal_comps k comps →
  PosixPath.normpath (assemble k comps) = assemble k comps.
Proof.
  intros Hk Hn. pose proof (fold_names k comps Hn) as Hfold.
  pose proof (join_not_absolute comps (proj1 Hn)) as Habs.
  unfold assemble. cbv zeta.
  destruct k as [|[|[|k]]]; [| | |lia].
  - destruct (Str.is_empty (Str.join_with "/" comps)) eqn:He; [reflexivity|].
    rewrite normpath_assemble, He.
    assert (Hk0 : PosixPath.initial_slashes (Str.join_with "/" comps) = 0)
      by (unfold PosixPath.initial_slashes; by rewrite Habs).
    rewrite Hk0, Hfold. unfold assemble. cbv zeta. by rewrite He.
  - change ("/" +:+ Str.join_with "/" comps) with (String "/" (Str.join_with "/" comps)).
    cbn [Str.is_empty]. rewrite normpath_assemble. cbn [Str.is_empty].
    assert (Hk1 : PosixPath.initial_slashes (String "/" (Str.join_with "/" comps)) = 1).
    { unfold PosixPath.initial_slashes.
      change (Str.startswith "/" (String "/" (Str.join_with "/" comps))) with true.
      change (Str.startswith "//" (String "/" (Str.join_with "/" comps)))
        with (Str.startswith "/" (Str.join_with "/" comps)).
      by rewrite Habs. }
    rewrite Hk1.
    change (Str.split_on PosixPath.is_sep (String "/" (Str.join_with "/" comps)))
      with ("" :: Str.split_on PosixPath.is_sep (Str.join_with "/" comps)).
    cbn [fold_left]. rewrite norm_step_skip by eauto. rewrite Hfold.
    reflexivity.
  - change ("//" +:+ Str.join_with "/" comps)
      with (String "/" (String "/" (Str.join_with "/" comps))).
    cbn [Str.is_empty]. rewrite normpath_assemble. cbn [Str.is_empty].
    assert (Hk2 : PosixPath.initial_slashes
                    (String "/" (String "/" (Str.join_with "/" comps))) = 2).
    { unfold PosixPath.initial_slashes.
      change (Str.startswith "/" (String "/" (String "/" (Str.join_with "/" comps))))
        with true.
      change (Str.startswith "//" (String "/" (String "/" (Str.join_with "/" comps))))
        with true.
      change (Str.startswith "///" (String "/" (String "/" (Str.join_with "/" comps))))
        with (Str.startswith "/" (Str.join_with "/" comps)).
      by rewrite Habs. }
    rewrite Hk2.
    change (Str.split_on PosixPath.is_sep
              (String "/" (String "/" (Str.join_with "/" comps))))
      with ("" :: "" :: Str.split_on PosixPath.is_sep (Str.join_with "/" comps)).
    cbn [fold_left]. rewrite !norm_step_skip by eauto. rewrite Hfold.
    reflexivity.
Qed.

Lemma normpath_normal path :
  normal_comps (PosixPath.initial_slashes path)
    (fold_left (PosixPath.norm_step (PosixPath.initial_slashes path))
       (Str.split_on PosixPath.is_sep path) []).
Proof.
  apply normal_comps_fold; [apply normal_comps_nil|]. apply split_on_pieces.
Qed.

(** X15: [normpath] (POSIX) changes nothing the second time: a normalized
    path is its own normal form. *)
Theorem normpath_idempotent path :
  PosixPath.normpath (PosixPath.normpath path) = PosixPath.normpath path.
Proof.
  rewrite (normpath_assemble path). destruct (Str.is_empty path); [reflexivity|].
  apply normpath_of_assemble; [apply initial_slashes_le | apply normpath_normal].
Qed.

Lemma startswith_slash s : Str.startswith "/" s = true → ∃ s', s = String "/" s'.
Proof.
  destruct s as [|a s]; [done|]. cbn. destruct (decide _) as [<-|]; [eauto | done].
Qed.

Lemma join_absolute_left a b :
  PosixPath.isabs a = true → PosixPath.isabs (PosixPath.join a b) = true.
Proof.
  unfold PosixPath.isabs, PosixPath.join. intros Ha.
  destruct (Str.startswith "/" b) eqn:Hb; [done|].
  apply startswith_slash in Ha as [a' ->].
  destruct (_ || _); by rewrite app_cons_string.
Qed.

Lemma normpath_of_absolute path :
  PosixPath.isabs path = true →
  ∃ k comps, (k = 1 ∨ k = 2) ∧ normal_comps k comps
           ∧ PosixPath.normpath path = assemble k comps.
Proof.
  intros Habs. rewrite normpath_assemble.
  pose proof (normpath_normal path) as Hn.
  pose proof (initial_slashes_le path) as Hle.
  assert (Hk : PosixPath.initial_slashes path ≠ 0).
  { unfold PosixPath.initial_slashes, PosixPath.isabs in *. rewrite Habs.
    by destruct (_ && _). }
  apply startswith_slash in Habs as [s' ->]. cbn [Str.is_empty].
  eexists _, _. split; [|split; [exact Hn | reflexivity]]. lia.
Qed.

Lemma assemble_absolute k comps :
  k = 1 ∨ k = 2 → PosixPath.isabs (assemble k comps) = true.
Proof. intros [-> | ->]; reflexivity. Qed.

Lemma resolved_path_posix wd name :
  resolved_path wd name
  = PosixPath.normpath (if PosixPath.isabs name then name else PosixPath.join wd name).
Proof. reflexivity. Qed.

Lemma resolved_path_of_absolute wd name :
  PosixPath.isabs wd = true →
  ∃ k comps, (k = 1 ∨ k = 2) ∧ normal_comps k comps
           ∧ resolved_path wd name = assemble k comps.
Proof.
  intros Hwd. rewrite resolved_path_posix. apply normpath_of_absolute.
  destruct (PosixPath.isabs name) eqn:Hn; [done | by apply join_absolute_left].
Qed.

(** X16: on a POSIX host with an absolute working directory the resolved
    path is absolute, for every file name, relative or not. *)
Theorem posix_resolved_path_is_absolute wd name :
  PosixPath.isabs wd = true →
  PosixPath.isabs (resolved_path wd name) = true.
Proof.
  intros Hwd. destruct (resolved_path_of_absolute wd name Hwd) as (k & comps & Hk & _ & ->).
  by apply assemble_absolute.
Qed.

(** X17: on a POSIX host with an absolute working directory, passing the
    resolved path back as the file name resolves to the same path: the
    ["file_path"] of one call names the same file in the next. *)
Theorem posix_resolved_path_round_trip wd name :
  PosixPath.isabs wd = true →
  resolved_path wd (resolved_path wd name) = resolved_path wd name.
Proof.
  intros Hwd. destruct (resolved_path_of_absolute wd name Hwd) as (k & comps & Hk & Hn & Hr).
  rewrite (resolved_path_posix wd (resolved_path wd name)), Hr.
  rewrite (assemble_absolute k comps Hk).
  apply normpath_of_assemble; [lia | done].
Qed.

Lemma split_assemble_absolute k comps :
  k = 1 ∨ k = 2 → normal_comps k comps →
  ∀ seg, seg ∈ Str.split_on PosixPath.is_sep (assemble k comps) → seg = "" ∨ seg ∈ comps.
Proof.
  intros Hk Hn seg.
  assert (Hsplit : ∀ seg, seg ∈ Str.split_on PosixPath.is_sep (Str.join_with "/" comps)
                          → seg = "" ∨ seg ∈ comps).
  { intros s. destruct comps as [|c comps]; [cbn; set_solver|].
    rewrite split_join; [by right | done |].
    destruct Hn as [Hnames _]. eapply Forall_impl; [exact Hnames|]. by intros ? (_ & _ & ?). }
  destruct Hk as [-> | ->].
  - change (assemble 1 comps) with (String "/" (Str.join_with "/" comps)).
    change (Str.split_on PosixPath.is_sep (String "/" (Str.join_with "/" comps)))
      with ("" :: Str.split_on PosixPath.is_sep (Str.join_with "/" comps)).
    intros [->| Hin]%elem_of_cons; [by left | by apply Hsplit].
  - change (assemble 2 comps) with (String "/" (String "/" (Str.join_with "/" comps))).
    change (Str.split_on PosixPath.is_sep
              (String "/" (String "/" (Str.join_with "/" comps))))
      with ("" :: "" :: Str.split_on PosixPath.is_sep (Str.join_with "/" comps)).
    intros [->| [->|Hin]%elem_of_cons]%elem_of_cons; [by left | by left | by apply Hsplit].
Qed.

(** X18: on a POSIX host with an absolute working directory no segment of
    the resolved path is [.] or [..]. *)
Theorem posix_resolved_path_has_no_dot_segment wd name seg :
  PosixPath.isabs wd = true →
  seg ∈ Str.split_on PosixPath.is_sep (resolved_path wd name) →
  seg ≠ "." ∧ seg ≠ "..".
Proof.
  intros Hwd Hseg.
  destruct (resolved_path_of_absolute wd name Hwd) as (k & comps & Hk & Hn & Hr).
  rewrite Hr in Hseg.
  destruct (split_assemble_absolute k comps Hk Hn seg Hseg) as [-> | Hin]; [done|].
  destruct Hn as (Hnames & n & rest & -> & Hrest & Hzero).
  rewrite Forall_forall in Hnames. destruct (Hnames _ Hin) as (_ & Hdot & _).
  split; [done|].
  rewrite Hzero in Hin by lia. cbn in Hin.
  rewrite Forall_forall in Hrest. by apply Hrest.
Qed.

(** [/data] and a name that climbs out of it. *)
Lemma posix_resolved_path_is_absolute_witness :
  PosixPath.isabs "/data" = true
  ∧ PosixPath.isabs (resolved_path "/data" "../tmp/./code.py") = true.
Proof.
  split; [reflexivity|].
  exact (posix_resolved_path_is_absolute "/data" "../tmp/./code.py" eq_refl).
Defined.

Lemma posix_resolved_path_round_trip_witness :
  PosixPath.isabs "/data" = true
  ∧ resolved_path "/data" (resolved_path "/data" "sub/../code.py")
    = resolved_path "/data" "sub/../code.py".
Proof.
  split; [reflexivity|].
  exact (posix_resolved_path_round_trip "/data" "sub/../code.py" eq_refl).
Defined.

Lemma posix_resolved_path_has_no_dot_segment_witness :
  PosixPath.isabs "/data" = true
  ∧ "tmp" ∈ Str.split_on PosixPath.is_sep (resolved_path "/data" "../tmp/./code.py")
  ∧ "tmp" ≠ "." ∧ "tmp" ≠ "..".
Proof.
  assert (Hin : "tmp" ∈ Str.split_on PosixPath.is_sep
                  (resolved_path "/data" "../tmp/./code.py"))
    by (vm_compute; set_solver).
  split; [reflexivity|]. split; [exact Hin|].
  exact (posix_resolved_path_has_no_dot_segment "/data" "../tmp/./code.py" "tmp"
           eq_refl Hin).
Defined.

Lemma join_relative_both a b :
  PosixPath.isabs a = false → PosixPath.isabs b = false →
  PosixPath.isabs (PosixPath.join a b) = false.
Proof.
  unfold PosixPath.isabs, PosixPath.join. intros Ha Hb. rewrite Hb.
  destruct a as [|c a]; [done|].
  cbn in Ha. destruct (decide ("/"%char = c)) as [|Hc]; [done|].
  cbn [Str.is_empty orb]. destruct (Str.endswith_char "/" (String c a));
    rewrite app_cons_string; cbn; by destruct (decide ("/"%char = c)).
Qed.

Lemma normpath_of_relative path :
  PosixPath.isabs path = false → PosixPath.isabs (PosixPath.normpath path) = false.
Proof.
  intros Hrel. rewrite normpath_assemble.
  destruct (Str.is_empty path); [reflexivity|].
  pose proof (normpath_normal path) as Hn.
  assert (Hk : PosixPath.initial_slashes path = 0)
    by (unfold PosixPath.initial_slashes, PosixPath.isabs in *; by rewrite Hrel).
  rewrite Hk in *. unfold assemble. cbv zeta.
  destruct (Str.is_empty _); [reflexivity|].
  apply join_not_absolute, Hn.
Qed.

(** X19: on a POSIX host, a relative working directory and a relative file
    name give a relative resolved path; the command line then names the
    script by that relative path while the child is started in
    [WORKING_DIRECTORY]. *)
Theorem posix_relative_path_in_command (h : Host) wd input_code codefile_name (w : World) :
  PosixPath.isabs wd = false →
  PosixPath.isabs codefile_name = false →
  host_makedirs h wd = None →
  host_open_w h (resolved_path wd codefile_name) = None →
  host_write h (resolved_path wd codefile_name) input_code = None →
  PosixPath.isabs (resolved_path wd codefile_name) = false
  ∧ launched (execute_code h wd input_code codefile_name w).2
    = launched w ++ [("python " +:+ resolved_path wd codefile_name, wd)].
Proof.
  intros Hwd Hname H1 H2 H3. split.
  - rewrite resolved_path_posix, Hname.
    by apply normpath_of_relative, join_relative_both.
  - pose proof (execute_code_world h wd input_code codefile_name w) as Hw.
    cbv zeta in Hw. rewrite H1, H2, H3 in Hw. apply Hw.
Qed.

(** The working directory [data], left relative. *)
Lemma posix_relative_path_in_command_witness :
  PosixPath.isabs (resolved_path "data" "code.py") = false
  ∧ launched (execute_code Scripted.host "data" "print(1+1)" "code.py" Scripted.world0).2
    = [("python data/code.py", "data")].
Proof.
  exact (posix_relative_path_in_command Scripted.host "data" "print(1+1)" "code.py"
           Scripted.world0 eq_refl eq_refl eq_refl eq_refl eq_refl).
Defined.
